(** * VaultDue: the reminder scheduling and delivery engine

    A shallow embedding of [src/worker/services/notificationService.ts]
    (class [NotificationService]) and of the [ReminderService] class that
    follows it in the same source file, together with the scheduled entry
    point [handleScheduledReminders] of [src/worker/index.ts] and the
    routes of that file that delete or renew a document, send a test
    reminder or start a run by hand.

    Conventions.
    - A JavaScript [number] that holds a day count is an integer or [NaN]
      (it is always the result of [Math.ceil]); see [number].
    - A nullable TEXT column is an [option string]; JavaScript truthiness of
      such a value is [truthy].
    - Strings are byte strings.  The only character tests of the source are
      against ASCII digits, and no byte of a multi-byte UTF-8 sequence is an
      ASCII digit, so the byte view and the UTF-16 view of the source agree
      on every function modelled here.
    - Asynchronous code is run to completion: an [await]ed promise either
      yields a value or rejects, and the model is the monad [Js] of
      computations over a [World] that either complete normally or throw. *)

From Stdlib Require Import ZArith List String Ascii Bool Lia Arith.
From Stdlib Require Import DecimalString.
Import ListNotations.
Open Scope string_scope.
Open Scope Z_scope.

Set Implicit Arguments.

(* ------------------------------------------------------------------ *)
(** * JavaScript values used by the engine *)

(** A day count: [Math.ceil] of a quotient of two [getTime()] values. *)
Inductive number : Type :=
| Num (z : Z)
| NaN.

(** The completion of a synchronous JavaScript expression. *)
Inductive Completion (A : Type) : Type :=
| Normal (a : A)
| Thrown.
Arguments Thrown {A}.

(** [!!s] for a string. *)
Definition nonempty (s : string) : bool :=
  match s with
  | EmptyString => false
  | String _ _ => true
  end.

(** [!!v] for a nullable string. *)
Definition truthy (v : option string) : bool :=
  match v with
  | Some s => nonempty s
  | None => false
  end.

(** [v || dflt] for a nullable string. *)
Definition or_else (v : option string) (dflt : string) : string :=
  match v with
  | Some s => if nonempty s then s else dflt
  | None => dflt
  end.

Definition dquote : string := String (ascii_of_nat 34) EmptyString.

(** Template-literal rendering of a [number]. *)
Definition number_to_string (n : number) : string :=
  match n with
  | Num z => NilEmpty.string_of_int (Z.to_int z)
  | NaN => "NaN"
  end.

(* ------------------------------------------------------------------ *)
(** * NotificationService.formatPhoneNumber *)

Definition is_digit (c : ascii) : bool :=
  ((48 <=? nat_of_ascii c) && (nat_of_ascii c <=? 57))%nat.

(** [s.replace(/\D/g, '')] *)
Fixpoint remove_non_digits (s : string) : string :=
  match s with
  | EmptyString => EmptyString
  | String c rest =>
      if is_digit c then String c (remove_non_digits rest)
      else remove_non_digits rest
  end.

(** [s.replace(/^(\+|00)/, '')]: the alternatives are tried in order at
    position 0 only, and at most one occurrence is replaced. *)
Definition remove_leading_plus_or_00 (s : string) : string :=
  match s with
  | String "+"%char rest => rest
  | String "0"%char (String "0"%char rest) => rest
  | _ => s
  end.

Definition formatPhoneNumber (phoneNumber : string) : string :=
  if negb (nonempty phoneNumber) then ""
  else
    let cleaned := remove_non_digits phoneNumber in
    let cleaned := remove_leading_plus_or_00 cleaned in
    let cleaned :=
      if (String.length cleaned =? 10)%nat then "91" ++ cleaned else cleaned in
    if ((String.length cleaned <? 10) || (15 <? String.length cleaned))%nat
    then ""
    else cleaned.

(** The normalisation as the specification words it, on lists of
    characters: keep the digits, drop one leading "+" or "00", prefix the
    default country code to a ten-digit number, and reject a result whose
    length is not between 10 and 15. *)
Module PhoneSpec.

Definition digits_only (s : string) : list ascii :=
  filter is_digit (list_ascii_of_string s).

Definition has_prefix (p l : list ascii) : bool :=
  (List.length p <=? List.length l)%nat &&
  if list_eq_dec ascii_dec (firstn (List.length p) l) p then true else false.

Definition strip_leading (l : list ascii) : list ascii :=
  if has_prefix ["+"%char] l then skipn 1 l
  else if has_prefix ["0"%char; "0"%char] l then skipn 2 l
  else l.

Definition default_country_code : list ascii := ["9"%char; "1"%char].

Definition with_country_code (l : list ascii) : list ascii :=
  if Nat.eq_dec (List.length l) 10 then default_country_code ++ l else l.

Definition in_range (l : list ascii) : bool :=
  (10 <=? List.length l)%nat && (List.length l <=? 15)%nat.

Definition normalize (s : string) : option (list ascii) :=
  let l := with_country_code (strip_leading (digits_only s)) in
  if in_range l then Some l else None.

(** Rejection is reported by the source as the empty string. *)
Definition render (r : option (list ascii)) : string :=
  match r with
  | Some l => string_of_list_ascii l
  | None => ""
  end.

End PhoneSpec.

Definition all_digits (s : string) : Prop :=
  Forall (fun c => is_digit c = true) (list_ascii_of_string s).

(* ------------------------------------------------------------------ *)
(** * ReminderService: the reminder policy *)

(** The own properties of the object literal [reminderDays]. *)
Definition reminderDays : list (string * list Z) :=
  [ ("30_days", [30; 14; 7; 3; 1; 0]);
    ("14_days", [14; 7; 3; 1; 0]);
    ("7_days",  [7; 3; 1; 0]);
    ("3_days",  [3; 1; 0]);
    ("1_day",   [1; 0]) ].

(** [reminderDays] is an ordinary object literal, so a property read that
    finds no own property continues on [Object.prototype].  These are the
    names it defines; each yields a function (or, for [__proto__], the
    prototype object itself): a truthy value with no [includes] method. *)
Definition Object_prototype_names : list string :=
  [ "constructor"; "hasOwnProperty"; "isPrototypeOf";
    "propertyIsEnumerable"; "toLocaleString"; "toString"; "valueOf";
    "__proto__"; "__defineGetter__"; "__defineSetter__";
    "__lookupGetter__"; "__lookupSetter__" ].

(** The value of the property read [reminderDays[key]]. *)
Inductive Property : Type :=
| OwnArray (days : list Z)
| InheritedMember
| Undefined.

Fixpoint own_property (key : string) (o : list (string * list Z))
  : option (list Z) :=
  match o with
  | [] => None
  | (k, v) :: rest => if String.eqb k key then Some v else own_property key rest
  end.

Definition mem_string (s : string) (l : list string) : bool :=
  existsb (String.eqb s) l.

Definition get_property (key : string) : Property :=
  match own_property key reminderDays with
  | Some days => OwnArray days
  | None =>
      if mem_string key Object_prototype_names then InheritedMember
      else Undefined
  end.

(** [a.includes(n)]: SameValueZero against integer elements; [NaN] equals
    none of them. *)
Definition includes (a : list Z) (n : number) : bool :=
  match n with
  | Num z => existsb (Z.eqb z) a
  | NaN => false
  end.

(** [n < 0] *)
Definition is_negative (n : number) : bool :=
  match n with
  | Num z => z <? 0
  | NaN => false
  end.

(** [shouldSendReminder(doc, daysUntilExpiry)]; of [doc] only
    [reminder_frequency] is read.  Calling [includes] on a value that has
    no such method raises a TypeError. *)
Definition shouldSendReminder (reminder_frequency : option string)
  (daysUntilExpiry : number) : Completion bool :=
  if is_negative daysUntilExpiry then Normal true
  else
    let frequency := or_else reminder_frequency "30_days" in
    let daysToRemind :=
      match get_property frequency with
      | Undefined => get_property "30_days"
      | p => p
      end in
    match daysToRemind with
    | OwnArray days => Normal (includes days daysUntilExpiry)
    | _ => Thrown
    end.

(** The threshold set that the specification attaches to a frequency. *)
Definition threshold_set (reminder_frequency : option string) : list Z :=
  match reminder_frequency with
  | Some f =>
      if (f =? "14_days")%string then [14; 7; 3; 1; 0]
      else if (f =? "7_days")%string then [7; 3; 1; 0]
      else if (f =? "3_days")%string then [3; 1; 0]
      else if (f =? "1_day")%string then [1; 0]
      else [30; 14; 7; 3; 1; 0]
  | None => [30; 14; 7; 3; 1; 0]
  end.

(** [n === 0] and [n <= k] *)
Definition is_zero (n : number) : bool :=
  match n with
  | Num z => z =? 0
  | NaN => false
  end.

Definition at_most (n : number) (k : Z) : bool :=
  match n with
  | Num z => z <=? k
  | NaN => false
  end.

Definition getReminderType (daysUntilExpiry : number) : string :=
  if is_negative daysUntilExpiry then "expired"
  else if is_zero daysUntilExpiry then "expires_today"
  else if at_most daysUntilExpiry 3 then "expires_soon"
  else if at_most daysUntilExpiry 7 then "expires_week"
  else if at_most daysUntilExpiry 14 then "expires_two_weeks"
  else "expires_month".

(* ------------------------------------------------------------------ *)
(** * The data model

    The tables of the migrations, with the columns the reminder engine
    reads or writes.  The timestamp columns ([created_at], [updated_at])
    and the columns the engine never touches are left out. *)

Module Document.
Record t : Type := mk {
  id : Z;
  user_id : string;
  title : string;
  expiration_date : string;
  is_critical : bool;
  status : string
}.
End Document.

Module User.
Record t : Type := mk {
  id : string;
  email : string
}.
End User.

Module UserProfile.
Record t : Type := mk {
  user_id : string;
  phone_number : option string;
  preferred_reminder_channel : option string;
  reminder_frequency : option string
}.
End UserProfile.

Module Reminder.
Record t : Type := mk {
  id : Z;
  document_id : Z;
  user_id : string;
  reminder_date : string;
  reminder_type : string;
  is_sent : bool
}.
End Reminder.

Module ActivityLog.
Record t : Type := mk {
  user_id : string;
  action_type : string;
  description : string;
  related_document_id : option Z
}.
End ActivityLog.

(** A result row of the two document queries: [Document & User &
    UserProfile] in the source. *)
Module Joined.
Record t : Type := mk {
  id : Z;
  user_id : string;
  title : string;
  expiration_date : string;
  is_critical : bool;
  email : string;
  preferred_reminder_channel : option string;
  reminder_frequency : option string;
  phone_number : option string
}.
End Joined.

Record Database : Type := mkDatabase {
  documents : list Document.t;
  users : list User.t;
  user_profiles : list UserProfile.t;
  reminders : list Reminder.t;
  (** the AUTOINCREMENT counter of [reminders] *)
  reminders_seq : Z;
  activity_logs : list ActivityLog.t
}.

(** ** The SQL statements *)

Definition join_row (d : Document.t) (u : User.t) (p : option UserProfile.t)
  : Joined.t :=
  {| Joined.id := Document.id d;
     Joined.user_id := Document.user_id d;
     Joined.title := Document.title d;
     Joined.expiration_date := Document.expiration_date d;
     Joined.is_critical := Document.is_critical d;
     Joined.email := User.email u;
     Joined.preferred_reminder_channel :=
       match p with
       | Some p => UserProfile.preferred_reminder_channel p
       | None => None
       end;
     Joined.reminder_frequency :=
       match p with
       | Some p => UserProfile.reminder_frequency p
       | None => None
       end;
     Joined.phone_number :=
       match p with
       | Some p => UserProfile.phone_number p
       | None => None
       end |}.

(** [LEFT JOIN user_profiles p ON d.user_id = p.user_id] *)
Definition left_join_profiles (db : Database) (d : Document.t) (u : User.t)
  : list Joined.t :=
  match filter (fun p => (UserProfile.user_id p =? Document.user_id d)%string)
               (user_profiles db) with
  | [] => [join_row d u None]
  | ps => map (fun p => join_row d u (Some p)) ps
  end.

(** [FROM documents d JOIN users u ON d.user_id = u.id LEFT JOIN ...
    WHERE where_] *)
Definition select_documents (where_ : Document.t -> bool) (db : Database)
  : list Joined.t :=
  flat_map
    (fun d =>
       flat_map
         (fun u =>
            if (User.id u =? Document.user_id d)%string
            then left_join_profiles db d u
            else [])
         (users db))
    (filter where_ (documents db)).

(** [WHERE d.status = 'active' AND d.expiration_date IS NOT NULL]; the
    column is declared NOT NULL. *)
Definition select_active_documents : Database -> list Joined.t :=
  select_documents (fun d => (Document.status d =? "active")%string).

(** [WHERE d.id = ? AND d.user_id = ?] *)
Definition select_document (documentId : Z) (userId : string)
  : Database -> list Joined.t :=
  select_documents
    (fun d => (Document.id d =? documentId)%Z
              && (Document.user_id d =? userId)%string).

Definition sent_on (document_id : Z) (today : string) (r : Reminder.t)
  : bool :=
  (Reminder.document_id r =? document_id)%Z
  && (Reminder.reminder_date r =? today)%string
  && Reminder.is_sent r.

(** [SELECT id FROM reminders WHERE document_id = ? AND reminder_date = ?
    AND is_sent = 1] *)
Definition select_sent_reminders (document_id : Z) (today : string)
  (db : Database) : list Z :=
  map Reminder.id (filter (sent_on document_id today) (reminders db)).

(** The rowid an AUTOINCREMENT table gives to the next row: one more than
    the largest rowid ever used. *)
Definition next_rowid (db : Database) : Z :=
  1 + fold_right Z.max (reminders_seq db) (map Reminder.id (reminders db)).

Definition set_reminders (db : Database) (rs : list Reminder.t) (seq : Z)
  : Database :=
  {| documents := documents db;
     users := users db;
     user_profiles := user_profiles db;
     reminders := rs;
     reminders_seq := seq;
     activity_logs := activity_logs db |}.

Definition set_activity_logs (db : Database) (ls : list ActivityLog.t)
  : Database :=
  {| documents := documents db;
     users := users db;
     user_profiles := user_profiles db;
     reminders := reminders db;
     reminders_seq := reminders_seq db;
     activity_logs := ls |}.

(** [INSERT INTO reminders (...) VALUES (?, ?, ?, ?, 0, ?, ?)]; the second
    component is [meta.last_row_id]. *)
Definition insert_reminder (document_id : Z) (user_id today type_ : string)
  (db : Database) : Database * Z :=
  let rowid := next_rowid db in
  (set_reminders db
     (reminders db ++
        [ {| Reminder.id := rowid;
             Reminder.document_id := document_id;
             Reminder.user_id := user_id;
             Reminder.reminder_date := today;
             Reminder.reminder_type := type_;
             Reminder.is_sent := false |} ])
     rowid,
   rowid).

Definition mark_sent (rowid : Z) (r : Reminder.t) : Reminder.t :=
  if (Reminder.id r =? rowid)%Z
  then {| Reminder.id := Reminder.id r;
          Reminder.document_id := Reminder.document_id r;
          Reminder.user_id := Reminder.user_id r;
          Reminder.reminder_date := Reminder.reminder_date r;
          Reminder.reminder_type := Reminder.reminder_type r;
          Reminder.is_sent := true |}
  else r.

(** [UPDATE reminders SET is_sent = 1, updated_at = ? WHERE id = ?] *)
Definition update_reminder_sent (rowid : Z) (db : Database) : Database * Z :=
  (set_reminders db (map (mark_sent rowid) (reminders db)) (reminders_seq db),
   rowid).

(** [INSERT INTO activity_logs (...) VALUES (?, 'reminder_sent', ?, ?, ?)] *)
Definition insert_activity_log (user_id description : string)
  (related_document_id : Z) (db : Database) : Database * Z :=
  (set_activity_logs db
     (activity_logs db ++
        [ {| ActivityLog.user_id := user_id;
             ActivityLog.action_type := "reminder_sent";
             ActivityLog.description := description;
             ActivityLog.related_document_id := Some related_document_id |} ]),
   0).

(* ------------------------------------------------------------------ *)
(** * The world and the monad of asynchronous computations *)

(** One HTTP request handed to [fetch]: the provider and the destination
    written into the request body. *)
Record Request : Type := mkRequest {
  provider : string;
  recipient : string
}.

Record World : Type := mkWorld {
  db : Database;
  (** the number of calls made so far to the database and to [fetch] *)
  tick : nat;
  (** the requests handed to [fetch], oldest first *)
  outbox : list Request
}.

Definition Js (A : Type) : Type := World -> Completion A * World.

Definition ret {A} (a : A) : Js A := fun w => (Normal a, w).

Definition bind {A B} (c : Js A) (k : A -> Js B) : Js B :=
  fun w =>
    match c w with
    | (Normal a, w') => k a w'
    | (Thrown, w') => (Thrown, w')
    end.

(** [try { body } catch (error) { handler }] *)
Definition try_catch {A} (body handler : Js A) : Js A :=
  fun w =>
    match body w with
    | (Normal a, w') => (Normal a, w')
    | (Thrown, w') => handler w'
    end.

Definition lift {A} (c : Completion A) : Js A := fun w => (c, w).

Notation "x <- c ;; k" := (bind c (fun x => k))
  (at level 61, c at next level, right associativity).

(** [for (const x of xs) { await body(x); }] *)
Fixpoint for_of {A} (xs : list A) (body : A -> Js unit) : Js unit :=
  match xs with
  | [] => ret tt
  | x :: rest => _ <- body x ;; for_of rest body
  end.

(** What one call to the database does. *)
Inductive D1Outcome : Type :=
| D1Success        (* the statement runs; [success] is true *)
| D1Unsuccessful   (* nothing is done; [success] is false, no results *)
| D1Rejects.       (* the promise rejects *)

(** What one call to [fetch] followed by [response.json()] does. *)
Inductive HttpOutcome : Type :=
| HttpOk           (* a JSON body with a 2xx status: [response.ok] *)
| HttpErrorStatus  (* a JSON body with a non-2xx status *)
| HttpRejects.     (* a network error, or a body that is not JSON,
                      whatever its status *)

Record D1Result : Type := mkD1Result {
  success : bool;
  last_row_id : Z
}.

Definition advance (w : World) (d : Database) (sent : list Request) : World :=
  {| db := d; tick := S (tick w); outbox := outbox w ++ sent |}.

(** The process-wide configuration [Env]: the transport credentials. *)
Record Env : Type := mkEnv {
  WHATSAPP_ACCESS_TOKEN : option string;
  WHATSAPP_PHONE_NUMBER_ID : option string;
  RESEND_API_KEY : option string;
  TWILIO_ACCOUNT_SID : option string;
  TWILIO_AUTH_TOKEN : option string;
  TWILIO_PHONE_NUMBER : option string
}.

Record NotificationPayload : Type := mkPayload {
  to : string;
  documentTitle : string;
  expirationDate : string;
  daysUntilExpiry : number;
  isCritical : bool;
  message : string
}.

Definition with_to (p : NotificationPayload) (address : string)
  : NotificationPayload :=
  {| to := address;
     documentTitle := documentTitle p;
     expirationDate := expirationDate p;
     daysUntilExpiry := daysUntilExpiry p;
     isCritical := isCritical p;
     message := message p |}.

(** The three methods [ReminderService] calls on its
    [notificationService] field. *)
Record Notifier : Type := mkNotifier {
  send_whatsapp : NotificationPayload -> Js bool;
  send_sms : NotificationPayload -> Js bool;
  send_email : NotificationPayload -> Js bool
}.

Definition MS_PER_DAY : Z := 1000 * 60 * 60 * 24.

(** [Math.ceil(a / b)] for integers [a] and [b > 0] (a negative zero
    compares and prints as zero). *)
Definition ceil_div (a b : Z) : Z := - ((- a) / b).

(** [Math.ceil((expirationDate.getTime() - today.getTime()) / MS_PER_DAY)];
    [getTime()] of an invalid date is [NaN], here [None].  The source
    computes in doubles, the model in integers: the two agree while the
    instants are less than 2^53 ms (some 285,000 years) apart. *)
Definition days_between (expirationDate today : option Z) : number :=
  match expirationDate, today with
  | Some e, Some t => Num (ceil_div (e - t) MS_PER_DAY)
  | _, _ => NaN
  end.

(** [btoa(s)] raises when [s] holds a character above U+00FF.  In the
    UTF-8 bytes of a string those are the characters whose first byte is
    0xC4 or more; the other bytes of a character are all below 0xC0. *)
Definition btoa_accepts (s : string) : bool :=
  forallb (fun c => (nat_of_ascii c <? 196)%nat) (list_ascii_of_string s).

(** The behaviour of the outside world during one run: what the call
    number [k] to the database or to [fetch] does, the configured
    credentials, and the [Date] built-ins: [Date_getTime s] is
    [new Date(s).getTime()] ([None] for [NaN]) and [toISODate ms] is the
    part of [new Date(ms).toISOString()] before the ['T']. *)
Record Host : Type := mkHost {
  d1 : nat -> D1Outcome;
  http : nat -> HttpOutcome;
  env : Env;
  Date_getTime : string -> option Z;
  toISODate : Z -> string
}.

(* ------------------------------------------------------------------ *)
(** * The services *)

Section Host.

Variable host : Host.

(** [const { results } = await db.prepare(sql).bind(...).all()].  Each of
    the three callers reads [results.length] next, so a call that yields
    no results raises there just as a rejected promise does. *)
Definition d1_all {A} (query : Database -> list A) : Js (list A) :=
  fun w =>
    match d1 host (tick w) with
    | D1Success => (Normal (query (db w)), advance w (db w) [])
    | _ => (Thrown, advance w (db w) [])
    end.

(** [await db.prepare(sql).bind(...).run()] *)
Definition d1_run (statement : Database -> Database * Z) : Js D1Result :=
  fun w =>
    match d1 host (tick w) with
    | D1Success =>
        let '(d, rowid) := statement (db w) in
        (Normal {| success := true; last_row_id := rowid |}, advance w d [])
    | D1Unsuccessful =>
        (Normal {| success := false; last_row_id := 0 |},
         advance w (db w) [])
    | D1Rejects => (Thrown, advance w (db w) [])
    end.

(** [await fetch(url, init)] then [await response.json()]; the value is
    [response.ok]. *)
Definition fetch (r : Request) : Js bool :=
  fun w =>
    match http host (tick w) with
    | HttpOk => (Normal true, advance w (db w) [r])
    | HttpErrorStatus => (Normal false, advance w (db w) [r])
    | HttpRejects => (Thrown, advance w (db w) [r])
    end.

(** ** NotificationService

    The message bodies are rendered by pure template functions whose text
    does not influence the result of a send; they are not modelled. *)

Definition sendWhatsAppNotification (payload : NotificationPayload)
  : Js bool :=
  try_catch
    (if negb (truthy (WHATSAPP_ACCESS_TOKEN (env host)))
        || negb (truthy (WHATSAPP_PHONE_NUMBER_ID (env host)))
     then ret false
     else
       let phoneNumber := formatPhoneNumber (to payload) in
       if negb (nonempty phoneNumber) then ret false
       else
         ok <- fetch {| provider := "whatsapp"; recipient := phoneNumber |} ;;
         if negb ok then ret false else ret true)
    (ret false).

Definition sendSMSNotification (payload : NotificationPayload) : Js bool :=
  try_catch
    (if negb (truthy (TWILIO_ACCOUNT_SID (env host)))
        || negb (truthy (TWILIO_AUTH_TOKEN (env host)))
        || negb (truthy (TWILIO_PHONE_NUMBER (env host)))
     then ret false
     else
       let phoneNumber := formatPhoneNumber (to payload) in
       if negb (nonempty phoneNumber) then ret false
       else
         if negb (btoa_accepts
                    (or_else (TWILIO_ACCOUNT_SID (env host)) "" ++ ":"
                     ++ or_else (TWILIO_AUTH_TOKEN (env host)) ""))
         then lift Thrown
         else
           ok <- fetch {| provider := "sms";
                          recipient := "+" ++ phoneNumber |} ;;
           if negb ok then ret false else ret true)
    (ret false).

Definition sendEmailNotification (payload : NotificationPayload) : Js bool :=
  try_catch
    (if negb (truthy (RESEND_API_KEY (env host))) then ret false
     else
       ok <- fetch {| provider := "email"; recipient := to payload |} ;;
       if negb ok then ret false else ret true)
    (ret false).

(** ** ReminderService, over the notification service it holds *)

Section ReminderService.

Variable notificationService : Notifier.

Definition getNotificationAddress (doc : Joined.t) (channel : string)
  : string :=
  if (channel =? "whatsapp")%string || (channel =? "sms")%string
  then or_else (Joined.phone_number doc) ""
  else or_else (Some (Joined.email doc)) "".

Definition sendNotification (doc : Joined.t) (days : number) : Js bool :=
  let channel := or_else (Joined.preferred_reminder_channel doc) "email" in
  let payload :=
    {| to := getNotificationAddress doc channel;
       documentTitle := Joined.title doc;
       expirationDate := Joined.expiration_date doc;
       daysUntilExpiry := days;
       isCritical := Joined.is_critical doc;
       message := "" |} in
  if negb (nonempty (to payload)) then ret false
  else
    try_catch
      (if (channel =? "whatsapp")%string then
         if negb (nonempty (to payload))
         then send_email notificationService
                (with_to payload (Joined.email doc))
         else send_whatsapp notificationService payload
       else if (channel =? "sms")%string then
         send_sms notificationService payload
       else
         send_email notificationService payload)
      (if negb (channel =? "email")%string && nonempty (Joined.email doc)
       then send_email notificationService
              (with_to payload (Joined.email doc))
       else ret false).

Definition activity_description (doc : Joined.t) (days : number) : string :=
  "Reminder sent for " ++ dquote ++ Joined.title doc ++ dquote
  ++ " (" ++ number_to_string days ++ " days to expiry)".

Definition processDocumentReminder (doc : Joined.t) (today : string)
  : Js unit :=
  try_catch
    (let expirationDate := Date_getTime host (Joined.expiration_date doc) in
     let todayDate := Date_getTime host today in
     let days := days_between expirationDate todayDate in
     should <- lift (shouldSendReminder (Joined.reminder_frequency doc) days) ;;
     if negb should then ret tt
     else
       existingReminders <-
         d1_all (select_sent_reminders (Joined.id doc) today) ;;
       if (0 <? List.length existingReminders)%nat then ret tt
       else
         let reminderType := getReminderType days in
         reminderResult <-
           d1_run (insert_reminder (Joined.id doc) (Joined.user_id doc)
                     today reminderType) ;;
         if negb (success reminderResult) then ret tt
         else
           sent <- sendNotification doc days ;;
           if sent then
             _ <- d1_run (update_reminder_sent (last_row_id reminderResult)) ;;
             _ <- d1_run (insert_activity_log (Joined.user_id doc)
                            (activity_description doc days)
                            (Joined.id doc)) ;;
             ret tt
           else ret tt)
    (ret tt).

(** [now] is the instant [new Date()] returns. *)
Definition processReminders (now : Z) : Js unit :=
  try_catch
    (documents <- d1_all select_active_documents ;;
     let today := toISODate host now in
     for_of documents (fun doc => processDocumentReminder doc today))
    (ret tt).

Definition sendTestReminder (now : Z) (userId : string) (documentId : Z)
  : Js bool :=
  try_catch
    (documents <- d1_all (select_document documentId userId) ;;
     match documents with
     | [] => ret false
     | doc :: _ =>
         let expirationDate := Date_getTime host (Joined.expiration_date doc) in
         let days := days_between expirationDate (Some now) in
         sendNotification doc days
     end)
    (ret false).

(** [handleScheduledReminders] of the worker's entry module. *)
Definition handleScheduledReminders (now : Z) : Js unit :=
  try_catch (processReminders now) (ret tt).

End ReminderService.

(** The service [ReminderService] constructs for itself:
    [new NotificationService(this.env)]. *)
Definition theNotificationService : Notifier :=
  {| send_whatsapp := sendWhatsAppNotification;
     send_sms := sendSMSNotification;
     send_email := sendEmailNotification |}.

End Host.

(* ------------------------------------------------------------------ *)
(** * Observations on the database *)

(** The reminder rows of one document. *)
Definition reminders_of (document_id : Z) (d : Database)
  : list Reminder.t :=
  filter (fun r => (Reminder.document_id r =? document_id)%Z) (reminders d).

Definition about_document (document_id : Z) (l : ActivityLog.t) : bool :=
  match ActivityLog.related_document_id l with
  | Some i => (i =? document_id)%Z
  | None => false
  end.

(** The audit entries that relate to one document. *)
Definition activity_of (document_id : Z) (d : Database)
  : list ActivityLog.t :=
  filter (about_document document_id) (activity_logs d).

(** The number of sent rows under one deduplication key. *)
Definition count_sent (document_id : Z) (date : string) (d : Database)
  : nat :=
  List.length (filter (sent_on document_id date) (reminders d)).

Definition already_sent (document_id : Z) (date : string) (d : Database)
  : bool :=
  existsb (sent_on document_id date) (reminders d).

(** A notification service that leaves the database alone. *)
Definition keeps_db {A} (c : Js A) : Prop :=
  forall w, db (snd (c w)) = db w.

Definition notifier_keeps_db (n : Notifier) : Prop :=
  forall p,
    keeps_db (send_whatsapp n p)
    /\ keeps_db (send_sms n p)
    /\ keeps_db (send_email n p).

(** The row [processDocumentReminder] inserts, and the audit entry it
    writes after a successful send. *)
Definition pending_row (host : Host) (doc : Joined.t) (today : string)
  (d : Database) (sent : bool) : Reminder.t :=
  {| Reminder.id := next_rowid d;
     Reminder.document_id := Joined.id doc;
     Reminder.user_id := Joined.user_id doc;
     Reminder.reminder_date := today;
     Reminder.reminder_type :=
       getReminderType
         (days_between (Date_getTime host (Joined.expiration_date doc))
            (Date_getTime host today));
     Reminder.is_sent := sent |}.

Definition sent_entry (host : Host) (doc : Joined.t) (today : string)
  : ActivityLog.t :=
  {| ActivityLog.user_id := Joined.user_id doc;
     ActivityLog.action_type := "reminder_sent";
     ActivityLog.description :=
       activity_description doc
         (days_between (Date_getTime host (Joined.expiration_date doc))
            (Date_getTime host today));
     ActivityLog.related_document_id := Some (Joined.id doc) |}.

(** The payload [sendNotification] builds for a document, addressed to
    [address]. *)
Definition payload_for (doc : Joined.t) (address : string) (days : number)
  : NotificationPayload :=
  {| to := address;
     documentTitle := Joined.title doc;
     expirationDate := Joined.expiration_date doc;
     daysUntilExpiry := days;
     isCritical := Joined.is_critical doc;
     message := "" |}.

(** A joined row with its frequency column blanked, and a database whose
    bookkeeping tables and frequency settings are replaced. *)
Definition without_frequency (r : Joined.t) : Joined.t :=
  {| Joined.id := Joined.id r;
     Joined.user_id := Joined.user_id r;
     Joined.title := Joined.title r;
     Joined.expiration_date := Joined.expiration_date r;
     Joined.is_critical := Joined.is_critical r;
     Joined.email := Joined.email r;
     Joined.preferred_reminder_channel := Joined.preferred_reminder_channel r;
     Joined.reminder_frequency := None;
     Joined.phone_number := Joined.phone_number r |}.

Definition with_frequency (f : option string) (p : UserProfile.t)
  : UserProfile.t :=
  {| UserProfile.user_id := UserProfile.user_id p;
     UserProfile.phone_number := UserProfile.phone_number p;
     UserProfile.preferred_reminder_channel :=
       UserProfile.preferred_reminder_channel p;
     UserProfile.reminder_frequency := f |}.

Definition with_policy_state (d : Database) (f : option string)
  (rs : list Reminder.t) (seq : Z) (ls : list ActivityLog.t) : Database :=
  {| documents := documents d;
     users := users d;
     user_profiles := map (with_frequency f) (user_profiles d);
     reminders := rs;
     reminders_seq := seq;
     activity_logs := ls |}.

Definition with_db (w : World) (d : Database) : World :=
  {| db := d; tick := tick w; outbox := outbox w |}.

(** A notification service that neither reads nor writes the database. *)
Definition oblivious {A} (c : Js A) : Prop :=
  forall w d, c (with_db w d) = (fst (c w), with_db (snd (c w)) d).

Definition notifier_oblivious (n : Notifier) : Prop :=
  forall p,
    oblivious (send_whatsapp n p)
    /\ oblivious (send_sms n p)
    /\ oblivious (send_email n p).

(* ------------------------------------------------------------------ *)
(** * Sample data

    One owner with one document that expires on 2024-01-08, seen from a
    run on 2024-01-01.  The sample [Date] built-ins know the three
    calendar days the samples use. *)
Module Sample.

Definition credentials : Env :=
  {| WHATSAPP_ACCESS_TOKEN := Some "wa-token";
     WHATSAPP_PHONE_NUMBER_ID := Some "wa-sender";
     RESEND_API_KEY := Some "re-key";
     TWILIO_ACCOUNT_SID := Some "tw-sid";
     TWILIO_AUTH_TOKEN := Some "tw-token";
     TWILIO_PHONE_NUMBER := Some "+15005550006" |}.

(** Calendar days as days since 1970-01-01. *)
Definition calendar : list (string * Z) :=
  [ ("2023-12-29", 19720); ("2024-01-01", 19723); ("2024-01-03", 19725);
    ("2024-01-08", 19730); ("2024-01-31", 19753) ].

Fixpoint day_of (s : string) (l : list (string * Z)) : option Z :=
  match l with
  | [] => None
  | (k, v) :: rest => if (k =? s)%string then Some v else day_of s rest
  end.

Fixpoint name_of (day : Z) (l : list (string * Z)) : string :=
  match l with
  | [] => "1970-01-01"
  | (k, v) :: rest => if (v =? day)%Z then k else name_of day rest
  end.

Definition getTime (s : string) : option Z :=
  match day_of s calendar with
  | Some day => Some (day * MS_PER_DAY)
  | None => None
  end.

Definition isoDate (ms : Z) : string := name_of (ms / MS_PER_DAY) calendar.

Definition host_with (d1 : nat -> D1Outcome) (http : nat -> HttpOutcome)
  : Host :=
  {| d1 := d1; http := http; env := credentials;
     Date_getTime := getTime; toISODate := isoDate |}.

(** Every database call and every request succeeds. *)
Definition reliable : Host :=
  host_with (fun _ => D1Success) (fun _ => HttpOk).

(** The call number [n] is a request that is answered with an error
    status; everything else succeeds. *)
Definition refusing (n : nat) : Host :=
  host_with (fun _ => D1Success)
    (fun k => if (k =? n)%nat then HttpErrorStatus else HttpOk).

(** 2024-01-01, 08:00 UTC. *)
Definition now : Z := 19723 * MS_PER_DAY + 8 * 60 * 60 * 1000.

Definition passport : Document.t :=
  {| Document.id := 1;
     Document.user_id := "u1";
     Document.title := "Passport";
     Document.expiration_date := "2024-01-08";
     Document.is_critical := true;
     Document.status := "active" |}.

Definition owner : User.t :=
  {| User.id := "u1"; User.email := "owner@example.com" |}.

Definition profile (phone channel frequency : option string)
  : UserProfile.t :=
  {| UserProfile.user_id := "u1";
     UserProfile.phone_number := phone;
     UserProfile.preferred_reminder_channel := channel;
     UserProfile.reminder_frequency := frequency |}.

Definition database (p : UserProfile.t) (rs : list Reminder.t) : Database :=
  {| documents := [passport];
     users := [owner];
     user_profiles := [p];
     reminders := rs;
     reminders_seq := 0;
     activity_logs := [] |}.

Definition world (d : Database) : World :=
  {| db := d; tick := 0; outbox := [] |}.

Definition whatsapp_profile : UserProfile.t :=
  profile (Some "8851670050") (Some "whatsapp") (Some "7_days").

Definition no_phone_profile : UserProfile.t :=
  profile None (Some "whatsapp") (Some "7_days").

(** The joined rows of the passport under the two profiles. *)
Definition passport_row : Joined.t :=
  join_row passport owner (Some whatsapp_profile).

Definition passport_row_no_phone : Joined.t :=
  join_row passport owner (Some no_phone_profile).

Definition sent_row : Reminder.t :=
  {| Reminder.id := 1;
     Reminder.document_id := 1;
     Reminder.user_id := "u1";
     Reminder.reminder_date := "2024-01-01";
     Reminder.reminder_type := "expires_week";
     Reminder.is_sent := true |}.

End Sample.

(** What one send may do: it completes with a boolean; it reports success
    only after handing exactly one request to [fetch] that ended in a 2xx
    answer with a JSON body ([HttpOk]); and when it reports failure it
    has handed over either nothing or exactly one request that did not
    end so (a rejected fetch, a body that is not JSON, or a status
    outside 2xx). *)
Definition fail_soft (host : Host) (c : Js bool) : Prop :=
  forall w,
    exists b,
      fst (c w) = Normal b
      /\ (b = true ->
          http host (tick w) = HttpOk
          /\ exists r, snd (c w) = advance w (db w) [r])
      /\ (b = false ->
          snd (c w) = w
          \/ (http host (tick w) <> HttpOk
              /\ exists r, snd (c w) = advance w (db w) [r])).

(** Further sample data. *)
Module Scenario.

(** A notification service whose chat and SMS transports throw. *)
Definition broken_chat (host : Host) : Notifier :=
  {| send_whatsapp := fun _ w => (Thrown, w);
     send_sms := fun _ w => (Thrown, w);
     send_email := sendEmailNotification host |}.

(** The passport of an owner whose profile names a channel the engine
    does not know. *)
Definition telegram_row : Joined.t :=
  join_row Sample.passport Sample.owner
    (Some (Sample.profile (Some "8851670050") (Some "telegram") None)).

(** A document whose expiration date does not parse. *)
Definition undated_row : Joined.t :=
  {| Joined.id := 2;
     Joined.user_id := "u1";
     Joined.title := "Lease";
     Joined.expiration_date := "next spring";
     Joined.is_critical := false;
     Joined.email := "owner@example.com";
     Joined.preferred_reminder_channel := Some "email";
     Joined.reminder_frequency := Some "30_days";
     Joined.phone_number := None |}.

(** How the sample path parameters read as integers. *)
Definition path_integer (s : string) : option Z :=
  if (s =? "1")%string then Some 1
  else if (s =? "7")%string then Some 7
  else None.

End Scenario.

(* ------------------------------------------------------------------ *)
(** * NotificationService: the message texts

    [formatEmailHTML], a fixed page around the same four cases, is not
    modelled. *)

Definition nl : string := String (ascii_of_nat 10) EmptyString.

(** [Math.abs(n)] *)
Definition number_abs (n : number) : number :=
  match n with
  | Num z => Num (Z.abs z)
  | NaN => NaN
  end.

(** [n === k] *)
Definition is_exactly (n : number) (k : Z) : bool :=
  match n with
  | Num z => z =? k
  | NaN => false
  end.

(** The two date renderings of the runtime:
    [new Date(s).toLocaleDateString('en-US', { weekday: 'long', year:
    'numeric', month: 'long', day: 'numeric' })] and
    [new Date(s).toLocaleDateString()]. *)
Record Locale : Type := mkLocale {
  toLocaleDateString_long : string -> string;
  toLocaleDateString : string -> string
}.

Section Templates.

Variable locale : Locale.

Definition formatWhatsAppMessage (payload : NotificationPayload) : string :=
  let urgencyEmoji := if isCritical payload then "🚨" else "📋" in
  let expiryFormatted :=
    toLocaleDateString_long locale (expirationDate payload) in
  if is_negative (daysUntilExpiry payload) then
    urgencyEmoji ++ " *EXPIRED DOCUMENT ALERT*" ++ nl ++ nl
    ++ "Your document " ++ dquote ++ documentTitle payload ++ dquote
    ++ " expired " ++ number_to_string (number_abs (daysUntilExpiry payload))
    ++ " day(s) ago on " ++ expiryFormatted ++ "." ++ nl ++ nl
    ++ "⚠️ Please renew this document immediately to avoid any issues."
    ++ nl ++ nl
    ++ "Log into VaultDue to update: https://vaultdue.com" ++ nl ++ nl
    ++ "Reply " ++ dquote ++ "RENEWED" ++ dquote
    ++ " once you've updated this document."
  else if is_exactly (daysUntilExpiry payload) 0 then
    urgencyEmoji ++ " *DOCUMENT EXPIRES TODAY*" ++ nl ++ nl
    ++ "Your document " ++ dquote ++ documentTitle payload ++ dquote
    ++ " expires TODAY (" ++ expiryFormatted ++ ")." ++ nl ++ nl
    ++ "⚠️ Please take immediate action to renew this document."
    ++ nl ++ nl
    ++ "Log into VaultDue to update: https://vaultdue.com" ++ nl ++ nl
    ++ "Reply " ++ dquote ++ "RENEWED" ++ dquote
    ++ " once you've updated this document."
  else if is_exactly (daysUntilExpiry payload) 1 then
    urgencyEmoji ++ " *DOCUMENT EXPIRES TOMORROW*" ++ nl ++ nl
    ++ "Your document " ++ dquote ++ documentTitle payload ++ dquote
    ++ " expires tomorrow (" ++ expiryFormatted ++ ")." ++ nl ++ nl
    ++ "⏰ Don't forget to renew this document!" ++ nl ++ nl
    ++ "Log into VaultDue to update: https://vaultdue.com" ++ nl ++ nl
    ++ "Reply " ++ dquote ++ "RENEWED" ++ dquote
    ++ " once you've updated this document."
  else
    urgencyEmoji ++ " *DOCUMENT EXPIRY REMINDER*" ++ nl ++ nl
    ++ "Your document " ++ dquote ++ documentTitle payload ++ dquote
    ++ " will expire in " ++ number_to_string (daysUntilExpiry payload)
    ++ " day(s) on " ++ expiryFormatted ++ "." ++ nl ++ nl
    ++ "📅 Plan ahead to renew this document on time." ++ nl ++ nl
    ++ "Log into VaultDue to manage: https://vaultdue.com" ++ nl ++ nl
    ++ "Reply " ++ dquote ++ "RENEWED" ++ dquote
    ++ " once you've updated this document.".

Definition formatSMSMessage (payload : NotificationPayload) : string :=
  let expiryFormatted := toLocaleDateString locale (expirationDate payload) in
  if is_negative (daysUntilExpiry payload) then
    "VaultDue Alert: " ++ dquote ++ documentTitle payload ++ dquote
    ++ " expired " ++ number_to_string (number_abs (daysUntilExpiry payload))
    ++ " day(s) ago (" ++ expiryFormatted
    ++ "). Please renew immediately. Visit: vaultdue.com"
  else if is_exactly (daysUntilExpiry payload) 0 then
    "VaultDue Alert: " ++ dquote ++ documentTitle payload ++ dquote
    ++ " expires TODAY (" ++ expiryFormatted
    ++ "). Take immediate action! Visit: vaultdue.com"
  else if is_exactly (daysUntilExpiry payload) 1 then
    "VaultDue Reminder: " ++ dquote ++ documentTitle payload ++ dquote
    ++ " expires tomorrow (" ++ expiryFormatted
    ++ "). Don't forget to renew! Visit: vaultdue.com"
  else
    "VaultDue Reminder: " ++ dquote ++ documentTitle payload ++ dquote
    ++ " expires in " ++ number_to_string (daysUntilExpiry payload)
    ++ " days (" ++ expiryFormatted
    ++ "). Plan to renew on time. Visit: vaultdue.com".

End Templates.

Definition getEmailSubject (payload : NotificationPayload) : string :=
  let priority := if isCritical payload then "[CRITICAL] " else "" in
  if is_negative (daysUntilExpiry payload) then
    priority ++ "EXPIRED: " ++ documentTitle payload ++ " - Action Required"
  else if is_exactly (daysUntilExpiry payload) 0 then
    priority ++ "EXPIRES TODAY: " ++ documentTitle payload
    ++ " - Immediate Action Needed"
  else if is_exactly (daysUntilExpiry payload) 1 then
    priority ++ "EXPIRES TOMORROW: " ++ documentTitle payload ++ " - Reminder"
  else
    priority ++ "Reminder: " ++ documentTitle payload ++ " expires in "
    ++ number_to_string (daysUntilExpiry payload) ++ " days".

(** [s] occurs in [t]. *)
Definition occurs_in (s t : string) : Prop :=
  exists before after, t = before ++ s ++ after.

(* ------------------------------------------------------------------ *)
(** * The worker: routes that use the engine or its tables

    A handler is run with the user the authentication middleware found
    ([None] when [c.get("user")] is empty) and answers with a status and a
    JSON body; an exception that leaves the handler is [Thrown]. *)

Inductive Json : Type :=
| JsonError (error : string)
| JsonSuccess
| JsonSuccessMessage (message : string)
| JsonDocument (d : Document.t).

Record Response : Type := mkResponse {
  status : Z;
  body : Json
}.

(** [c.json(body)] and [c.json(body, status)] *)
Definition json (b : Json) : Response := {| status := 200; body := b |}.

Definition json_status (b : Json) (code : Z) : Response :=
  {| status := code; body := b |}.

Definition set_documents (d : Database) (docs : list Document.t) : Database :=
  {| documents := docs;
     users := users d;
     user_profiles := user_profiles d;
     reminders := reminders d;
     reminders_seq := reminders_seq d;
     activity_logs := activity_logs d |}.

Section Routes.

Variable host : Host.

(** The integer SQLite reads a bound TEXT value as when it compares it
    with a column of INTEGER affinity ([None] when the text is not the
    text of an integer, in which case it equals no integer). *)
Variable to_integer : string -> option Z.

Definition integer_is (id : string) (n : Z) : bool :=
  match to_integer id with
  | Some k => (k =? n)%Z
  | None => false
  end.

(** [WHERE id = ? AND user_id = ?] on [documents] *)
Definition document_matches (id userId : string) (d : Document.t) : bool :=
  integer_is id (Document.id d) && (Document.user_id d =? userId)%string.

(** [WHERE document_id = ? AND user_id = ?] on [reminders] *)
Definition reminder_matches (id userId : string) (r : Reminder.t) : bool :=
  integer_is id (Reminder.document_id r)
  && (Reminder.user_id r =? userId)%string.

(** [SELECT ... FROM documents WHERE id = ? AND user_id = ?] *)
Definition select_own_documents (id userId : string) (d : Database)
  : list Document.t :=
  filter (document_matches id userId) (documents d).

(** [DELETE FROM documents WHERE id = ? AND user_id = ?] *)
Definition delete_documents (id userId : string) (d : Database)
  : Database * Z :=
  (set_documents d
     (filter (fun x => negb (document_matches id userId x)) (documents d)),
   0).

(** [DELETE FROM reminders WHERE document_id = ? AND user_id = ?] *)
Definition delete_reminders (id userId : string) (d : Database)
  : Database * Z :=
  (set_reminders d
     (filter (fun r => negb (reminder_matches id userId r)) (reminders d))
     (reminders_seq d),
   0).

(** [INSERT INTO activity_logs (user_id, action_type, description,
    related_document_id, created_at) VALUES (...)], the related document
    left out by the statements that do not name it. *)
Definition insert_activity (userId action description : string)
  (related : option Z) (d : Database) : Database * Z :=
  (set_activity_logs d
     (activity_logs d ++
        [ {| ActivityLog.user_id := userId;
             ActivityLog.action_type := action;
             ActivityLog.description := description;
             ActivityLog.related_document_id := related |} ]),
   0).

Definition unauthorized : Response :=
  json_status (JsonError "Unauthorized") 401.

(** [app.delete("/api/documents/:id", ...)] *)
Definition delete_document_route (user : option string) (id : string)
  : Js Response :=
  match user with
  | None => ret unauthorized
  | Some userId =>
      docToDelete <- d1_all host (select_own_documents id userId) ;;
      match docToDelete with
      | [] => ret (json_status (JsonError "Document not found") 404)
      | first :: _ =>
          result <- d1_run host (delete_documents id userId) ;;
          if negb (success result)
          then ret (json_status (JsonError "Document not found") 404)
          else
            _ <- d1_run host (delete_reminders id userId) ;;
            _ <- d1_run host
                   (insert_activity userId "document_deleted"
                      ("Deleted document " ++ dquote ++ Document.title first
                       ++ dquote)
                      None) ;;
            ret (json JsonSuccess)
      end
  end.

Definition renewed (d : Document.t) : Document.t :=
  {| Document.id := Document.id d;
     Document.user_id := Document.user_id d;
     Document.title := Document.title d;
     Document.expiration_date := Document.expiration_date d;
     Document.is_critical := Document.is_critical d;
     Document.status := "renewed" |}.

(** [UPDATE documents SET status = 'renewed', last_renewed_date = ?,
    updated_at = ? WHERE id = ? AND user_id = ?]; the two date columns are
    not among the columns of the modelled rows. *)
Definition renew_documents (id userId : string) (d : Database)
  : Database * Z :=
  (set_documents d
     (map (fun x => if document_matches id userId x then renewed x else x)
        (documents d)),
   0).

(** [app.post("/api/documents/:id/renew", ...)]; with no row found,
    reading [results[0].title] raises. *)
Definition renew_document_route (user : option string) (id : string)
  : Js Response :=
  match user with
  | None => ret unauthorized
  | Some userId =>
      result <- d1_run host (renew_documents id userId) ;;
      if negb (success result)
      then ret (json_status (JsonError "Document not found") 404)
      else
        results <- d1_all host (select_own_documents id userId) ;;
        match results with
        | [] => lift Thrown
        | first :: _ =>
            _ <- d1_run host
                   (insert_activity userId "document_renewed"
                      ("Marked document " ++ dquote ++ Document.title first
                       ++ dquote ++ " as renewed")
                      (to_integer id)) ;;
            ret (json (JsonDocument first))
        end
  end.

(** [app.post("/api/documents/:id/test-reminder", ...)]; [id] is
    [parseInt(c.req.param("id"))] when that is an integer, and [now] the
    instant the service reads. *)
Definition test_reminder_route (now : Z) (user : option string) (id : Z)
  : Js Response :=
  match user with
  | None => ret unauthorized
  | Some userId =>
      try_catch
        (sent <- sendTestReminder host (theNotificationService host) now
                   userId id ;;
         if sent
         then ret (json (JsonSuccessMessage "Test reminder sent successfully"))
         else ret (json_status (JsonError "Failed to send test reminder") 500))
        (ret (json_status (JsonError "Failed to send test reminder") 500))
  end.

(** [app.post("/api/admin/process-reminders", ...)] *)
Definition process_reminders_route (now : Z) : Js Response :=
  try_catch
    (_ <- processReminders host (theNotificationService host) now ;;
     ret (json (JsonSuccessMessage "Reminder processing completed")))
    (ret (json_status (JsonError "Failed to process reminders") 500)).

End Routes.

(** The sample database after the passport was marked renewed. *)
Module Renewal.

Definition database : Database :=
  set_documents (Sample.database Sample.whatsapp_profile [])
    [renewed Sample.passport].

Definition world : World := Sample.world database.

End Renewal.

(* ------------------------------------------------------------------ *)
(** * Properties of the phone normaliser *)

Lemma length_list_ascii_of_string (s : string) :
  List.length (list_ascii_of_string s) = String.length s.
Proof. induction s as [|c s IH]; simpl; congruence. Qed.

Lemma remove_non_digits_is_filter (s : string) :
  list_ascii_of_string (remove_non_digits s) = PhoneSpec.digits_only s.
Proof.
  unfold PhoneSpec.digits_only.
  induction s as [|c s IH]; simpl; [reflexivity|].
  destruct (is_digit c); simpl; rewrite IH; reflexivity.
Qed.

Lemma remove_leading_is_strip (s : string) :
  list_ascii_of_string (remove_leading_plus_or_00 s)
  = PhoneSpec.strip_leading (list_ascii_of_string s).
Proof.
  destruct s as [|c s]; [reflexivity|].
  destruct c as [[] [] [] [] [] [] [] []]; try reflexivity;
    destruct s as [|c' s]; try reflexivity.
  destruct c' as [[] [] [] [] [] [] [] []]; reflexivity.
Qed.

Lemma string_of_list_ascii_inj_empty (l : list ascii) :
  string_of_list_ascii l = "" -> l = [].
Proof. destruct l; simpl; [reflexivity | discriminate]. Qed.

Lemma formatPhoneNumber_unfold (s : string) :
  formatPhoneNumber s =
    let cleaned := remove_leading_plus_or_00 (remove_non_digits s) in
    let cleaned :=
      if (String.length cleaned =? 10)%nat then "91" ++ cleaned else cleaned in
    if ((String.length cleaned <? 10) || (15 <? String.length cleaned))%nat
    then "" else cleaned.
Proof.
  unfold formatPhoneNumber. destruct s; reflexivity.
Qed.

Lemma formatPhoneNumber_refines_spec (s : string) :
  formatPhoneNumber s = PhoneSpec.render (PhoneSpec.normalize s).
Proof.
  rewrite formatPhoneNumber_unfold.
  unfold PhoneSpec.normalize, PhoneSpec.with_country_code, PhoneSpec.in_range.
  rewrite <- remove_non_digits_is_filter, <- remove_leading_is_strip.
  set (c := remove_leading_plus_or_00 (remove_non_digits s)).
  cbv zeta. rewrite length_list_ascii_of_string.
  destruct (Nat.eq_dec (String.length c) 10) as [E|E].
  - rewrite E. simpl. rewrite length_list_ascii_of_string, E. simpl.
    rewrite string_of_list_ascii_of_string. reflexivity.
  - apply Nat.eqb_neq in E. rewrite E.
    rewrite length_list_ascii_of_string.
    destruct (String.length c <? 10)%nat eqn:L1;
      destruct (15 <? String.length c)%nat eqn:L2;
      destruct (10 <=? String.length c)%nat eqn:L3;
      destruct (String.length c <=? 15)%nat eqn:L4; simpl;
      rewrite ?string_of_list_ascii_of_string; try reflexivity;
      apply Nat.ltb_lt in L1 || apply Nat.ltb_ge in L1;
      apply Nat.ltb_lt in L2 || apply Nat.ltb_ge in L2;
      apply Nat.leb_le in L3 || apply Nat.leb_gt in L3;
      apply Nat.leb_le in L4 || apply Nat.leb_gt in L4; lia.
Qed.

Lemma all_digits_remove_non_digits (s : string) :
  all_digits (remove_non_digits s).
Proof.
  unfold all_digits. rewrite remove_non_digits_is_filter.
  unfold PhoneSpec.digits_only.
  apply Forall_forall. intros c H. apply filter_In in H. tauto.
Qed.

Lemma all_digits_remove_leading (s : string) :
  all_digits s -> all_digits (remove_leading_plus_or_00 s).
Proof.
  unfold all_digits. intros H.
  assert (T : forall l, Forall (fun c => is_digit c = true) l ->
              Forall (fun c => is_digit c = true) (PhoneSpec.strip_leading l)).
  { intros l Hl. unfold PhoneSpec.strip_leading.
    destruct (PhoneSpec.has_prefix _ l).
    - destruct l; simpl; [assumption | inversion Hl; assumption].
    - destruct (PhoneSpec.has_prefix _ l); [|assumption].
      destruct l as [|a [|b l]]; simpl; try assumption; [constructor|].
      inversion Hl as [|? ? _ Hl']. inversion Hl'; assumption. }
  rewrite remove_leading_is_strip. apply T, H.
Qed.

(** C10: the normaliser returns the empty string or ten to fifteen decimal
    digits, whatever string it is given. *)
Theorem formatPhoneNumber_empty_or_digits (s : string) :
  formatPhoneNumber s = ""
  \/ (all_digits (formatPhoneNumber s)
      /\ (10 <= String.length (formatPhoneNumber s) <= 15)%nat).
Proof.
  rewrite formatPhoneNumber_unfold.
  pose proof (all_digits_remove_leading (all_digits_remove_non_digits s)) as D.
  set (c := remove_leading_plus_or_00 (remove_non_digits s)) in *.
  cbv zeta.
  set (c' := if (String.length c =? 10)%nat then "91" ++ c else c).
  assert (D' : all_digits c').
  { unfold c'. destruct (String.length c =? 10)%nat; [|exact D].
    unfold all_digits in *. simpl. repeat constructor; assumption. }
  destruct (String.length c' <? 10)%nat eqn:L1; [left; reflexivity|].
  destruct (15 <? String.length c')%nat eqn:L2; [left; reflexivity|].
  right. simpl. split; [exact D'|].
  apply Nat.ltb_ge in L1. apply Nat.ltb_ge in L2. lia.
Qed.

(** C6: the normaliser is the normalisation of the specification (digits
    kept, one leading "+" or "00" dropped, the default country code put
    before exactly ten digits, a length outside 10..15 rejected with the
    empty string), and it maps the three sample numbers as stated. *)
Theorem formatPhoneNumber_normalizes :
  (forall s, formatPhoneNumber s = PhoneSpec.render (PhoneSpec.normalize s))
  /\ (forall s, formatPhoneNumber s = "" <-> PhoneSpec.normalize s = None)
  /\ formatPhoneNumber "8851670050" = "918851670050"
  /\ formatPhoneNumber "+91 88516 70050" = "918851670050"
  /\ formatPhoneNumber "123" = "".
Proof.
  split; [exact formatPhoneNumber_refines_spec|].
  split; [|repeat split; reflexivity].
  intros s. rewrite formatPhoneNumber_refines_spec.
  unfold PhoneSpec.normalize.
  destruct (PhoneSpec.in_range _) eqn:R; simpl.
  - split; [|discriminate]. intros H.
    apply string_of_list_ascii_inj_empty in H. rewrite H in R. discriminate.
  - split; reflexivity.
Qed.


(* ------------------------------------------------------------------ *)
(** * Properties of the reminder policy *)

(** C5: the urgency tier of every integer day count. *)
Theorem getReminderType_tiers :
  (forall d, d < 0 -> getReminderType (Num d) = "expired")
  /\ getReminderType (Num 0) = "expires_today"
  /\ (forall d, 1 <= d <= 3 -> getReminderType (Num d) = "expires_soon")
  /\ (forall d, 4 <= d <= 7 -> getReminderType (Num d) = "expires_week")
  /\ (forall d, 8 <= d <= 14 ->
        getReminderType (Num d) = "expires_two_weeks")
  /\ (forall d, 14 < d -> getReminderType (Num d) = "expires_month")
  /\ getReminderType (Num (-5)) = "expired"
  /\ getReminderType (Num 2) = "expires_soon"
  /\ getReminderType (Num 7) = "expires_week"
  /\ getReminderType (Num 10) = "expires_two_weeks"
  /\ getReminderType (Num 20) = "expires_month".
Proof.
  assert (T : forall d,
             getReminderType (Num d) =
               if d <? 0 then "expired"
               else if d =? 0 then "expires_today"
               else if d <=? 3 then "expires_soon"
               else if d <=? 7 then "expires_week"
               else if d <=? 14 then "expires_two_weeks"
               else "expires_month") by reflexivity.
  repeat split; try reflexivity; intros d H; rewrite T;
    repeat match goal with
      | |- context [?a <? ?b] => destruct (Z.ltb_spec a b); try lia
      | |- context [?a =? ?b] => destruct (Z.eqb_spec a b); try lia
      | |- context [?a <=? ?b] => destruct (Z.leb_spec a b); try lia
      end; reflexivity.
Qed.

(** X2: a document that has already expired is due under every frequency
    setting, the names found on [Object.prototype] included. *)
Lemma shouldSendReminder_expired (f : option string) (d : Z) :
  d < 0 -> shouldSendReminder f (Num d) = Normal true.
Proof.
  intros H. unfold shouldSendReminder. simpl.
  destruct (Z.ltb_spec d 0); [reflexivity | lia].
Qed.

(** X1: for every frequency whose name is not found on [Object.prototype]
    (the five known ones, a missing or empty one, any other unknown one) a
    reminder is due exactly when the document has expired or the day count
    is in the threshold list of the frequency, the list of [30_days]
    standing in for a missing or unknown frequency. *)
Lemma shouldSendReminder_policy (f : option string) (d : Z) :
  mem_string (or_else f "30_days") Object_prototype_names = false ->
  shouldSendReminder f (Num d)
  = Normal ((d <? 0) || existsb (Z.eqb d) (threshold_set f)).
Proof.
  intros H. unfold shouldSendReminder. simpl is_negative.
  destruct (d <? 0); [reflexivity|]. cbv zeta.
  destruct f as [s|]; [|reflexivity].
  unfold or_else in *. destruct (nonempty s) eqn:N.
  2:{ destruct s; [reflexivity | discriminate]. }
  unfold get_property at 1. unfold threshold_set.
  unfold own_property, reminderDays.
  rewrite (String.eqb_sym "14_days"), (String.eqb_sym "7_days"),
    (String.eqb_sym "3_days"), (String.eqb_sym "1_day").
  destruct (String.eqb_spec "30_days" s) as [<-|_]; [reflexivity|].
  destruct (s =? "14_days")%string; [reflexivity|].
  destruct (s =? "7_days")%string; [reflexivity|].
  destruct (s =? "3_days")%string; [reflexivity|].
  destruct (s =? "1_day")%string; [reflexivity|].
  rewrite H. reflexivity.
Qed.

(** C2, at a frequency the profile endpoint stores without validation: the
    specification counts 30 days before expiry as due under the default
    thresholds, while the property read finds [Object] on the prototype
    chain and the call of [includes] raises.  In a pass in which every call
    would succeed, the document (7 days before expiry, a default
    threshold) therefore gets no reminder row and no message, where an
    unknown frequency that names nothing on the prototype gets both. *)
Theorem shouldSendReminder_inherited_name_throws :
  shouldSendReminder (Some "constructor") (Num 30) = Thrown
  /\ existsb (Z.eqb 30) (threshold_set (Some "constructor")) = true
  /\ shouldSendReminder (Some "unknown") (Num 30) = Normal true
  /\ (let pass frequency :=
        snd (processReminders Sample.reliable
               (theNotificationService Sample.reliable) Sample.now
               (Sample.world
                  (Sample.database
                     (Sample.profile (Some "8851670050") (Some "whatsapp")
                        (Some frequency))
                     []))) in
      reminders (db (pass "constructor")) = []
      /\ outbox (pass "constructor") = []
      /\ map Reminder.is_sent (reminders (db (pass "unknown"))) = [true]
      /\ outbox (pass "unknown")
         = [ {| provider := "whatsapp"; recipient := "918851670050" |} ]).
Proof. repeat split; reflexivity. Qed.

(* ------------------------------------------------------------------ *)
(** * The notification service *)

Section TransportFacts.

Variable host : Host.

Ltac run_transport :=
  intros; unfold sendWhatsAppNotification, sendSMSNotification,
    sendEmailNotification, try_catch, bind, ret, fetch, lift;
  repeat match goal with
    | |- context [if ?b then _ else _] => destruct b; simpl
    | |- context [match http host ?k with _ => _ end] =>
        destruct (http host k); simpl
    end.

(** Every send is fail-soft: it completes normally with a boolean. *)
Lemma sendWhatsAppNotification_total p w :
  exists b, fst (sendWhatsAppNotification host p w) = Normal b.
Proof. run_transport; eauto. Qed.

Lemma sendSMSNotification_total p w :
  exists b, fst (sendSMSNotification host p w) = Normal b.
Proof. run_transport; eauto. Qed.

Lemma sendEmailNotification_total p w :
  exists b, fst (sendEmailNotification host p w) = Normal b.
Proof. run_transport; eauto. Qed.

Lemma theNotificationService_keeps_db :
  notifier_keeps_db (theNotificationService host).
Proof.
  intros p. unfold keeps_db. simpl.
  repeat split; run_transport; reflexivity.
Qed.

End TransportFacts.

(* ------------------------------------------------------------------ *)
(** * The orchestrator *)

Ltac js_step H :=
  cbn beta iota zeta
    delta [negb fst snd success last_row_id advance db tick outbox
           List.length Nat.ltb Nat.leb insert_reminder update_reminder_sent
           insert_activity_log] in H.

Section OrchestratorFacts.

Variable host : Host.
Variable ns : Notifier.
Hypothesis ns_keeps_db : notifier_keeps_db ns.

Lemma sendNotification_keeps_db doc days :
  keeps_db (sendNotification ns doc days).
Proof.
  intros w. unfold sendNotification, try_catch, ret.
  set (p := mkPayload _ _ _ _ _ _).
  destruct (ns_keeps_db p) as (Hw & Hs & He).
  destruct (ns_keeps_db (with_to p (Joined.email doc))) as (_ & _ & He').
  unfold keeps_db in *.
  repeat match goal with
    | |- context [if ?b then _ else _] => destruct b; simpl
    end; try reflexivity;
  match goal with
  | |- context [match ?c w with _ => _ end] =>
      let E := fresh "E" in
      pose proof (Hw w) as Hw1; pose proof (Hs w) as Hs1;
      pose proof (He w) as He1; pose proof (He' w) as He1';
      destruct (c w) as [[b|] w1] eqn:E; simpl in *
  end; try assumption;
  try (rewrite He'; assumption); try reflexivity; try congruence.
Qed.


Lemma next_rowid_fresh d r :
  In r (reminders d) -> Reminder.id r < next_rowid d.
Proof.
  unfold next_rowid. generalize (reminders_seq d).
  induction (reminders d) as [|x l IH]; intros z H; [destruct H|].
  cbn [map fold_right]. destruct H as [->|H]; [lia|].
  specialize (IH z H). lia.
Qed.

Lemma mark_sent_fresh d :
  map (mark_sent (next_rowid d)) (reminders d) = reminders d.
Proof.
  rewrite <- (map_id (reminders d)) at 2.
  apply map_ext_in. intros r H. unfold mark_sent.
  pose proof (next_rowid_fresh d r H).
  destruct (Z.eqb_spec (Reminder.id r) (next_rowid d)); [lia | reflexivity].
Qed.

Lemma already_sent_iff_selected document_id today d :
  already_sent document_id today d = false
  <-> select_sent_reminders document_id today d = [].
Proof.
  unfold already_sent, select_sent_reminders.
  induction (reminders d) as [|r l IH]; simpl; [tauto|].
  destruct (sent_on document_id today r); simpl; [|exact IH].
  split; discriminate.
Qed.

Lemma mark_sent_inserted d r :
  Reminder.id r = next_rowid d ->
  map (mark_sent (next_rowid d)) (reminders d ++ [r])
  = (reminders d
     ++ [ {| Reminder.id := Reminder.id r;
             Reminder.document_id := Reminder.document_id r;
             Reminder.user_id := Reminder.user_id r;
             Reminder.reminder_date := Reminder.reminder_date r;
             Reminder.reminder_type := Reminder.reminder_type r;
             Reminder.is_sent := true |} ])%list.
Proof.
  intros E. rewrite map_app, mark_sent_fresh. simpl.
  unfold mark_sent. rewrite E, Z.eqb_refl. reflexivity.
Qed.

Lemma processDocumentReminder_cases doc today w :
  let r := processDocumentReminder host ns doc today w in
  fst r = Normal tt
  /\ (db (snd r) = db w
      \/ (already_sent (Joined.id doc) today (db w) = false
          /\ exists sent,
               reminders (db (snd r))
               = (reminders (db w)
                  ++ [pending_row host doc today (db w) sent])%list
               /\ (activity_logs (db (snd r)) = activity_logs (db w)
                   \/ activity_logs (db (snd r))
                      = (activity_logs (db w)
                         ++ [sent_entry host doc today])%list)
               /\ documents (db (snd r)) = documents (db w)
               /\ users (db (snd r)) = users (db w)
               /\ user_profiles (db (snd r)) = user_profiles (db w))).
Proof.
  intros r. subst r.
  destruct (processDocumentReminder host ns doc today w) as [c wf] eqn:Run.
  unfold processDocumentReminder, try_catch, bind, lift, ret in Run.
  set (days := days_between _ _) in *. cbn [fst snd].
  destruct (shouldSendReminder _ days) as [[|]|]; js_step Run;
    try (inversion Run; subst; auto; fail).
  unfold d1_all in Run.
  destruct (d1 host (tick w)) eqn:D0; js_step Run;
    try (inversion Run; subst; auto; fail).
  destruct (select_sent_reminders _ _ _) eqn:Sel; js_step Run;
    try (inversion Run; subst; auto; fail).
  apply already_sent_iff_selected in Sel.
  unfold d1_run in Run. js_step Run.
  destruct (d1 host (S (tick w))) eqn:D1; js_step Run;
    try (inversion Run; subst; auto; fail).
  match type of Run with
  | context [sendNotification ns doc days ?W] =>
      pose proof (sendNotification_keeps_db doc days W) as K;
      destruct (sendNotification ns doc days W) as [[[|]|] w2] eqn:SN
  end; js_step K; js_step Run.
  - destruct (d1 host (tick w2)) eqn:D2; js_step Run;
      destruct (d1 host (S (tick w2))) eqn:D3; js_step Run;
      inversion Run; subst; clear Run;
      (split; [reflexivity|]); right; (split; [exact Sel|]);
      cbn [db reminders activity_logs set_reminders set_activity_logs
           documents users user_profiles];
      rewrite K;
      cbn [db reminders activity_logs set_reminders set_activity_logs
           documents users user_profiles reminders_seq];
      rewrite ?mark_sent_inserted by reflexivity;
      first [ exists true; repeat split; auto; fail
            | exists false; repeat split; auto; fail ].
  - inversion Run; subst; clear Run.
    split; [reflexivity|]. right. split; [exact Sel|].
    rewrite K. exists false. repeat split; auto.
  - inversion Run; subst; clear Run.
    split; [reflexivity|]. right. split; [exact Sel|].
    rewrite K. exists false. repeat split; auto.
Qed.


Lemma count_sent_zero d date dbs :
  already_sent d date dbs = false -> count_sent d date dbs = 0%nat.
Proof.
  intros H. apply already_sent_iff_selected in H.
  unfold select_sent_reminders in H. unfold count_sent.
  apply (f_equal (@List.length Z)) in H.
  rewrite length_map in H. exact H.
Qed.

(** A document whose reminder of today is already sent keeps its rows and
    its audit entries through the processing of any document. *)
Lemma processDocumentReminder_frame d doc today w :
  already_sent d today (db w) = true ->
  let w' := snd (processDocumentReminder host ns doc today w) in
  reminders_of d (db w') = reminders_of d (db w)
  /\ activity_of d (db w') = activity_of d (db w)
  /\ already_sent d today (db w') = true.
Proof.
  intros Sent w'. subst w'.
  destruct (processDocumentReminder_cases doc today w)
    as (_ & [E | (Fresh & sent & Er & El & _)]).
  - rewrite E. auto.
  - assert (N : (Joined.id doc =? d)%Z = false).
    { destruct (Z.eqb_spec (Joined.id doc) d) as [e|]; [|reflexivity].
      rewrite e in Fresh. congruence. }
    unfold reminders_of, activity_of, already_sent in *.
    rewrite Er, filter_app, existsb_app, Sent. cbn. rewrite N, app_nil_r.
    repeat split; try reflexivity.
    destruct El as [-> | ->]; [reflexivity|].
    rewrite filter_app. cbn. unfold about_document. cbn.
    rewrite N, app_nil_r. reflexivity.
Qed.

(** Processing a document never makes a second sent row under a key. *)
Lemma processDocumentReminder_count d date doc today w :
  (count_sent d date (db (snd (processDocumentReminder host ns doc today w)))
   <= Nat.max 1 (count_sent d date (db w)))%nat.
Proof.
  destruct (processDocumentReminder_cases doc today w)
    as (_ & [E | (Fresh & sent & Er & _)]).
  - rewrite E. lia.
  - unfold count_sent. rewrite Er, filter_app, length_app. cbn [filter].
    destruct (sent_on d date (pending_row host doc today (db w) sent))
      eqn:S; cbn [List.length]; [|lia].
    unfold sent_on in S. cbn in S.
    apply andb_prop in S. destruct S as [S _].
    apply andb_prop in S. destruct S as [S1 S2].
    apply Z.eqb_eq in S1. apply String.eqb_eq in S2. subst d date.
    apply count_sent_zero in Fresh. unfold count_sent in Fresh.
    rewrite Fresh. lia.
Qed.

Lemma for_of_invariant {A} (R : Database -> Database -> Prop)
  (body : A -> Js unit) :
  (forall d, R d d) ->
  (forall a b c, R a b -> R b c -> R a c) ->
  (forall x w, R (db w) (db (snd (body x w)))) ->
  forall xs w, R (db w) (db (snd (for_of xs body w))).
Proof.
  intros Rrefl Rtrans Hbody xs.
  induction xs as [|x xs IH]; intros w; cbn; [apply Rrefl|].
  unfold bind. pose proof (Hbody x w) as H1.
  destruct (body x w) as [[u|] w1]; cbn in *; [|exact H1].
  eapply Rtrans; [exact H1 | apply IH].
Qed.

Lemma processReminders_invariant (R : Database -> Database -> Prop) now :
  (forall d, R d d) ->
  (forall a b c, R a b -> R b c -> R a c) ->
  (forall doc w,
      R (db w)
        (db (snd (processDocumentReminder host ns doc
                    (toISODate host now) w)))) ->
  forall w, R (db w) (db (snd (processReminders host ns now w))).
Proof.
  intros Rrefl Rtrans Hdoc w.
  unfold processReminders, try_catch, bind, d1_all, ret.
  destruct (d1 host (tick w)); cbn; try apply Rrefl.
  match goal with
  | |- context [for_of ?xs ?body ?W] =>
      pose proof (for_of_invariant R body Rrefl Rtrans Hdoc xs W) as H;
      destruct (for_of xs body W) as [[u|] w1]
  end; exact H.
Qed.

End OrchestratorFacts.

(* ------------------------------------------------------------------ *)
(** * The scheduled pass *)

Lemma try_catch_unit_total (body : Js unit) (w : World) :
  fst (try_catch body (ret tt) w) = Normal tt.
Proof.
  unfold try_catch, ret. destruct (body w) as [[[]|] w']; reflexivity.
Qed.

(** C7: the scheduled pass completes normally whatever the database, the
    transports and the documents do; so does its caller in the worker, and
    so does the loop over the documents, which no document can cut short. *)
Theorem scheduled_pass_never_throws (host : Host) (ns : Notifier) (now : Z)
  (w : World) :
  fst (processReminders host ns now w) = Normal tt
  /\ fst (handleScheduledReminders host ns now w) = Normal tt
  /\ (forall doc today w',
         fst (processDocumentReminder host ns doc today w') = Normal tt)
  /\ (forall docs today w',
         fst (for_of docs
                (fun doc => processDocumentReminder host ns doc today) w')
         = Normal tt).
Proof.
  assert (D : forall doc today w',
             fst (processDocumentReminder host ns doc today w') = Normal tt).
  { intros. apply try_catch_unit_total. }
  repeat split; try apply try_catch_unit_total; [exact D|].
  intros docs today. induction docs as [|doc docs IH]; intros w'.
  - reflexivity.
  - cbn. unfold bind. specialize (D doc today w').
    destruct (processDocumentReminder host ns doc today w') as [[u|] w1];
      [apply IH | discriminate].
Qed.

Lemma filter_filter_implied {A} (p q : A -> bool) (l : list A) :
  (forall x, p x = true -> q x = true) ->
  filter p (filter q l) = filter p l.
Proof.
  intros H. induction l as [|x l IH]; [reflexivity|]. cbn.
  destruct (q x) eqn:Q; cbn.
  - rewrite IH. reflexivity.
  - destruct (p x) eqn:P; [|exact IH].
    apply H in P. congruence.
Qed.

Lemma count_sent_of_document d date dbs :
  count_sent d date dbs
  = List.length (filter (sent_on d date) (reminders_of d dbs)).
Proof.
  unfold count_sent, reminders_of.
  rewrite filter_filter_implied; [reflexivity|].
  intros r H. unfold sent_on in H.
  apply andb_prop in H. destruct H as [H _].
  apply andb_prop in H. tauto.
Qed.

(** C1: once a sent row exists for a document and today, a further pass on
    that day leaves the rows and the audit entries of that document as
    they are, so the number of sent rows under the key does not change;
    and no pass raises the number of sent rows under any key above one. *)
Theorem scheduled_pass_idempotent (host : Host) (now : Z) (w : World)
  (d : Z) :
  already_sent d (toISODate host now) (db w) = true ->
  let w' := snd (processReminders host (theNotificationService host) now w) in
  reminders_of d (db w') = reminders_of d (db w)
  /\ activity_of d (db w') = activity_of d (db w)
  /\ count_sent d (toISODate host now) (db w')
     = count_sent d (toISODate host now) (db w)
  /\ (forall d' date,
         (count_sent d' date (db w')
          <= Nat.max 1 (count_sent d' date (db w)))%nat).
Proof.
  intros Sent w'. subst w'.
  set (ns := theNotificationService host).
  set (today := toISODate host now) in *.
  pose proof (theNotificationService_keeps_db host) as K.
  assert (F : reminders_of d (db (snd (processReminders host ns now w)))
              = reminders_of d (db w)
              /\ activity_of d (db (snd (processReminders host ns now w)))
                 = activity_of d (db w)
              /\ already_sent d today
                   (db (snd (processReminders host ns now w))) = true).
  { apply (processReminders_invariant host ns
             (fun a b => already_sent d today a = true ->
                         reminders_of d b = reminders_of d a
                         /\ activity_of d b = activity_of d a
                         /\ already_sent d today b = true));
      [tauto | | | exact Sent].
    - intros a b c Hab Hbc Ha.
      destruct (Hab Ha) as (R1 & A1 & S1).
      destruct (Hbc S1) as (R2 & A2 & S2).
      repeat split; congruence.
    - intros doc w0 H0.
      apply (processDocumentReminder_frame host K d doc today w0 H0). }
  destruct F as (FR & FA & _).
  repeat split; try assumption.
  - rewrite !count_sent_of_document, FR. reflexivity.
  - intros d' date.
    apply (processReminders_invariant host ns
             (fun a b => (count_sent d' date b
                          <= Nat.max 1 (count_sent d' date a))%nat)).
    + intros; lia.
    + intros; lia.
    + intros doc w0. apply (processDocumentReminder_count host K).
Qed.

Lemma scheduled_pass_idempotent_witness :
  let w := Sample.world
             (Sample.database Sample.whatsapp_profile [Sample.sent_row]) in
  let w' := snd (processReminders Sample.reliable
                   (theNotificationService Sample.reliable) Sample.now w) in
  already_sent 1 (toISODate Sample.reliable Sample.now) (db w) = true
  /\ reminders_of 1 (db w') = reminders_of 1 (db w)
  /\ activity_of 1 (db w') = activity_of 1 (db w)
  /\ count_sent 1 (toISODate Sample.reliable Sample.now) (db w')
     = count_sent 1 (toISODate Sample.reliable Sample.now) (db w)
  /\ (forall d' date,
         (count_sent d' date (db w')
          <= Nat.max 1 (count_sent d' date (db w)))%nat).
Proof.
  split; [reflexivity|].
  apply (scheduled_pass_idempotent Sample.reliable Sample.now
           (Sample.world
              (Sample.database Sample.whatsapp_profile [Sample.sent_row]))
           1).
  reflexivity.
Defined.

(** The scenario of a document that expires in exactly seven days under
    the frequency [7_days]: the first pass of the day inserts the row,
    sends one message, marks the row sent and logs it; the second pass of
    that day changes nothing in the database and sends nothing. *)
Example two_passes_on_one_day :
  let host := Sample.reliable in
  let ns := theNotificationService host in
  let w0 := Sample.world (Sample.database Sample.whatsapp_profile []) in
  let w1 := snd (processReminders host ns Sample.now w0) in
  let w2 := snd (processReminders host ns Sample.now w1) in
  reminders (db w1) = [Sample.sent_row]
  /\ activity_logs (db w1) = [sent_entry host Sample.passport_row "2024-01-01"]
  /\ outbox w1 = [ {| provider := "whatsapp"; recipient := "918851670050" |} ]
  /\ db w2 = db w1
  /\ outbox w2 = outbox w1.
Proof. repeat split; reflexivity. Qed.

(* ------------------------------------------------------------------ *)
(** * Recording the outcome of a delivery *)

(** C8: after the pending row is inserted, a failed delivery leaves the
    database as the insert left it (the row unsent, no audit entry); a
    successful delivery followed by successful writes marks the row sent
    and appends exactly one [reminder_sent] entry; and the row is sent, or
    the audit log grows, only when the delivery reported success. *)
Theorem delivery_outcome_recorded (host : Host) (doc : Joined.t)
  (today : string) (w : World) :
  let ns := theNotificationService host in
  let days := days_between (Date_getTime host (Joined.expiration_date doc))
                (Date_getTime host today) in
  shouldSendReminder (Joined.reminder_frequency doc) days = Normal true ->
  d1 host (tick w) = D1Success ->
  already_sent (Joined.id doc) today (db w) = false ->
  d1 host (S (tick w)) = D1Success ->
  let inserted :=
    fst (insert_reminder (Joined.id doc) (Joined.user_id doc) today
           (getReminderType days) (db w)) in
  let delivery :=
    sendNotification ns doc days
      (advance (advance w (db w) []) inserted []) in
  let final := db (snd (processDocumentReminder host ns doc today w)) in
  reminders inserted
  = (reminders (db w) ++ [pending_row host doc today (db w) false])%list
  /\ (fst delivery = Normal false -> final = inserted)
  /\ (fst delivery = Normal true ->
      d1 host (tick (snd delivery)) = D1Success ->
      d1 host (S (tick (snd delivery))) = D1Success ->
      reminders final
      = (reminders (db w) ++ [pending_row host doc today (db w) true])%list
      /\ activity_logs final
         = (activity_logs (db w) ++ [sent_entry host doc today])%list)
  /\ (In (pending_row host doc today (db w) true) (reminders final) ->
      fst delivery = Normal true)
  /\ (activity_logs final <> activity_logs (db w) ->
      fst delivery = Normal true
      /\ activity_logs final
         = (activity_logs (db w) ++ [sent_entry host doc today])%list).
Proof.
  intros ns days Due D0 Fresh D1 inserted delivery final.
  subst final delivery inserted.
  pose proof (sendNotification_keeps_db (theNotificationService_keeps_db host)
                doc days) as K.
  fold ns in K. unfold keeps_db in K.
  apply already_sent_iff_selected in Fresh.
  destruct (processDocumentReminder host ns doc today w) as [c wf] eqn:Run.
  unfold processDocumentReminder, try_catch, bind, lift, ret in Run.
  fold days in Run. rewrite Due in Run. js_step Run.
  unfold d1_all in Run. rewrite D0, Fresh in Run. js_step Run.
  unfold d1_run in Run. js_step Run. rewrite D1 in Run. js_step Run.
  cbn [insert_reminder fst snd].
  set (rows := (reminders (db w) ++ _)%list) in *.
  set (inserted := set_reminders (db w) rows (next_rowid (db w))) in *.
  set (w1 := advance (advance w (db w) []) inserted []) in *.
  specialize (K w1).
  assert (NotIn : ~ In (pending_row host doc today (db w) true) rows).
  { unfold rows. intros H. apply in_app_or in H. destruct H as [H|[H|[]]].
    - apply next_rowid_fresh in H. cbn in H. lia.
    - discriminate H. }
  assert (Grow : forall l (x : ActivityLog.t), (l ++ [x])%list <> l).
  { intros l x H. apply (f_equal (@List.length _)) in H.
    rewrite length_app in H. cbn in H. lia. }
  split; [reflexivity|].
  destruct (sendNotification ns doc days w1) as [[[|]|] w2] eqn:SN;
    cbn [fst snd] in *; js_step Run.
  - destruct (d1 host (tick w2)) eqn:D2; js_step Run;
      destruct (d1 host (S (tick w2))) eqn:D3; js_step Run;
      inversion Run; subst c wf; clear Run;
      cbn [db advance fst snd reminders activity_logs set_reminders
           set_activity_logs reminders_seq];
      rewrite ?K; unfold w1, inserted;
      cbn [db advance fst snd reminders activity_logs set_reminders
           set_activity_logs reminders_seq];
      unfold rows; rewrite ?mark_sent_inserted by reflexivity;
      (split; [discriminate|]);
      (split; [intros _ E2 E3; try discriminate; split; reflexivity|]);
      (split; [reflexivity|]); intros N; (split; [reflexivity|]);
      try reflexivity; exfalso; apply N; reflexivity.
  - inversion Run; subst c wf; clear Run. cbn [snd]. rewrite K.
    split; [reflexivity|]. split; [discriminate|].
    split; [intros H; exfalso; exact (NotIn H)|].
    intros N. exfalso. apply N. reflexivity.
  - inversion Run; subst c wf; clear Run. cbn [snd]. rewrite K.
    split; [discriminate|]. split; [discriminate|].
    split; [intros H; exfalso; exact (NotIn H)|].
    intros N. exfalso. apply N. reflexivity.
Qed.

Lemma delivery_outcome_recorded_witness :
  let host := Sample.reliable in
  let doc := Sample.passport_row in
  let today := "2024-01-01" in
  let w := Sample.world (Sample.database Sample.whatsapp_profile []) in
  let ns := theNotificationService host in
  let days := days_between (Date_getTime host (Joined.expiration_date doc))
                (Date_getTime host today) in
  let inserted :=
    fst (insert_reminder (Joined.id doc) (Joined.user_id doc) today
           (getReminderType days) (db w)) in
  let delivery :=
    sendNotification ns doc days
      (advance (advance w (db w) []) inserted []) in
  let final := db (snd (processDocumentReminder host ns doc today w)) in
  (shouldSendReminder (Joined.reminder_frequency doc) days = Normal true
   /\ d1 host (tick w) = D1Success
   /\ already_sent (Joined.id doc) today (db w) = false
   /\ d1 host (S (tick w)) = D1Success)
  /\ reminders inserted
     = (reminders (db w) ++ [pending_row host doc today (db w) false])%list
  /\ (fst delivery = Normal false -> final = inserted)
  /\ (fst delivery = Normal true ->
      d1 host (tick (snd delivery)) = D1Success ->
      d1 host (S (tick (snd delivery))) = D1Success ->
      reminders final
      = (reminders (db w) ++ [pending_row host doc today (db w) true])%list
      /\ activity_logs final
         = (activity_logs (db w) ++ [sent_entry host doc today])%list)
  /\ (In (pending_row host doc today (db w) true) (reminders final) ->
      fst delivery = Normal true)
  /\ (activity_logs final <> activity_logs (db w) ->
      fst delivery = Normal true
      /\ activity_logs final
         = (activity_logs (db w) ++ [sent_entry host doc today])%list).
Proof.
  split; [repeat split; reflexivity|].
  apply (delivery_outcome_recorded Sample.reliable Sample.passport_row
           "2024-01-01"
           (Sample.world (Sample.database Sample.whatsapp_profile [])));
    reflexivity.
Defined.

(* ------------------------------------------------------------------ *)
(** * Channel selection and fallback *)

Section FallbackFacts.

Variable ns : Notifier.

(** X10: the fallback of the [catch] block, for any notification service:
    when the send on a chat or SMS channel throws and the owner has an
    email address, the result is that of one send by email, started where
    the failed send stopped. *)
Lemma sendNotification_fallback_on_throw doc days w w1 :
  let channel := or_else (Joined.preferred_reminder_channel doc) "email" in
  let payload :=
    payload_for doc (getNotificationAddress doc channel) days in
  nonempty (to payload) = true ->
  nonempty (Joined.email doc) = true ->
  (channel = "whatsapp" /\ send_whatsapp ns payload w = (Thrown, w1)
   \/ channel = "sms" /\ send_sms ns payload w = (Thrown, w1)) ->
  sendNotification ns doc days w
  = send_email ns (with_to payload (Joined.email doc)) w1.
Proof.
  intros channel payload Hto Hemail H.
  unfold sendNotification, try_catch. fold channel.
  change (mkPayload (getNotificationAddress doc channel) (Joined.title doc)
            (Joined.expiration_date doc) days (Joined.is_critical doc) "")
    with payload.
  rewrite Hto, Hemail. cbn [negb].
  destruct H as [[E T] | [E T]]; rewrite E; cbn; rewrite T; reflexivity.
Qed.

(** A send on a chat or SMS channel that completes with [false] is the
    result; the email transport is not called. *)
Lemma sendNotification_false_is_final doc days w w1 :
  let channel := or_else (Joined.preferred_reminder_channel doc) "email" in
  let payload :=
    payload_for doc (getNotificationAddress doc channel) days in
  nonempty (to payload) = true ->
  (channel = "whatsapp" /\ send_whatsapp ns payload w = (Normal false, w1)
   \/ channel = "sms" /\ send_sms ns payload w = (Normal false, w1)) ->
  sendNotification ns doc days w = (Normal false, w1).
Proof.
  intros channel payload Hto H.
  unfold sendNotification, try_catch. fold channel.
  change (mkPayload (getNotificationAddress doc channel) (Joined.title doc)
            (Joined.expiration_date doc) days (Joined.is_critical doc) "")
    with payload.
  rewrite Hto. cbn [negb].
  destruct H as [[E T] | [E T]]; rewrite E; cbn; rewrite T; reflexivity.
Qed.

(** X11: with no phone number on file, a chat or SMS preference ends the
    send with [false] before any transport is called, for any
    notification service. *)
Lemma sendNotification_without_phone doc days w :
  let channel := or_else (Joined.preferred_reminder_channel doc) "email" in
  channel = "whatsapp" \/ channel = "sms" ->
  truthy (Joined.phone_number doc) = false ->
  sendNotification ns doc days w = (Normal false, w).
Proof.
  intros channel Hc Hp.
  unfold sendNotification, getNotificationAddress. fold channel.
  assert (A : or_else (Joined.phone_number doc) "" = "").
  { unfold or_else, truthy in *. destruct (Joined.phone_number doc) as [s|];
      [rewrite Hp|]; reflexivity. }
  destruct Hc as [-> | ->]; cbn; rewrite A; reflexivity.
Qed.

End FallbackFacts.

(** C3, at a document whose owner prefers WhatsApp, has no phone number
    and has an email address: the send ends with [false] and calls no
    transport, whatever the notification service; in a scheduled pass in
    which every call would succeed the inserted row stays unsent, nothing
    is logged and no request leaves, although a send to the email address
    succeeds there. *)
Theorem whatsapp_without_phone_is_not_delivered :
  let doc := Sample.passport_row_no_phone in
  let host := Sample.reliable in
  let w := Sample.world (Sample.database Sample.no_phone_profile []) in
  let w' := snd (processReminders host (theNotificationService host)
                   Sample.now w) in
  (Joined.preferred_reminder_channel doc = Some "whatsapp"
   /\ Joined.phone_number doc = None
   /\ Joined.email doc = "owner@example.com")
  /\ (forall ns days w0, sendNotification ns doc days w0 = (Normal false, w0))
  /\ select_active_documents (db w) = [doc]
  /\ outbox w' = []
  /\ reminders (db w')
     = [pending_row host doc "2024-01-01" (db w) false]
  /\ activity_logs (db w') = []
  /\ fst (sendEmailNotification host
            (payload_for doc (Joined.email doc) (Num 7)) w)
     = Normal true.
Proof.
  repeat split; try reflexivity.
Qed.

(** C4, at a document whose owner prefers WhatsApp and has both a phone
    number and an email address, when the WhatsApp request is answered
    with an error status: the send ends with [false] after that single
    request, and no email is attempted although a send to the email
    address succeeds at that point. *)
Theorem failed_whatsapp_delivery_is_not_retried :
  let doc := Sample.passport_row in
  let host := Sample.refusing 0 in
  let w := Sample.world (Sample.database Sample.whatsapp_profile []) in
  let r := sendNotification (theNotificationService host) doc (Num 7) w in
  (Joined.preferred_reminder_channel doc = Some "whatsapp"
   /\ Joined.phone_number doc = Some "8851670050"
   /\ Joined.email doc = "owner@example.com")
  /\ sendWhatsAppNotification host
       (payload_for doc "8851670050" (Num 7)) w
     = (Normal false,
        advance w (db w)
          [ {| provider := "whatsapp"; recipient := "918851670050" |} ])
  /\ fst r = Normal false
  /\ outbox (snd r)
     = [ {| provider := "whatsapp"; recipient := "918851670050" |} ]
  /\ fst (sendEmailNotification host
            (payload_for doc (Joined.email doc) (Num 7)) (snd r))
     = Normal true.
Proof.
  repeat split; reflexivity.
Qed.

(* ------------------------------------------------------------------ *)
(** * The manual test reminder *)

Lemma theNotificationService_oblivious (host : Host) :
  notifier_oblivious (theNotificationService host).
Proof.
  intros p. unfold oblivious. cbn [send_whatsapp send_sms send_email
                                    theNotificationService].
  repeat split; intros w d;
    unfold sendWhatsAppNotification, sendSMSNotification,
      sendEmailNotification, try_catch, bind, ret, fetch, lift;
    cbn [with_db tick db outbox];
    repeat match goal with
      | |- context [if ?b then _ else _] => destruct b; cbn
      | |- context [match http host ?k with _ => _ end] =>
          destruct (http host k); cbn
      end; reflexivity.
Qed.

Lemma sendNotification_oblivious (ns : Notifier) doc days :
  notifier_oblivious ns -> oblivious (sendNotification ns doc days).
Proof.
  intros H w d. unfold sendNotification, try_catch, ret.
  set (p := mkPayload _ _ _ _ _ _).
  destruct (H p) as (Hw & Hs & He).
  destruct (H (with_to p (Joined.email doc))) as (_ & _ & He').
  unfold oblivious in *.
  repeat match goal with
    | |- context [if ?b then _ else _] => destruct b; cbn
    end; try reflexivity;
  rewrite ?Hw, ?Hs, ?He, ?He';
  match goal with
  | |- context [match ?c w with _ => _ end] =>
      destruct (c w) as [[b|] w1]; cbn
  end; try reflexivity; apply He'.
Qed.

Lemma sendNotification_without_frequency (ns : Notifier) doc days :
  sendNotification ns (without_frequency doc) days
  = sendNotification ns doc days.
Proof. reflexivity. Qed.

Lemma filter_profiles_with_frequency f uid ps :
  filter (fun p => (UserProfile.user_id p =? uid)%string)
    (map (with_frequency f) ps)
  = map (with_frequency f)
      (filter (fun p => (UserProfile.user_id p =? uid)%string) ps).
Proof.
  induction ps as [|p ps IH]; [reflexivity|]. cbn.
  destruct (UserProfile.user_id p =? uid)%string; cbn; rewrite IH;
    reflexivity.
Qed.

(** The document queries return the same rows, up to the frequency column,
    whatever the bookkeeping tables and the frequency settings hold. *)
Lemma select_documents_policy_blind where_ d f rs seq ls :
  map without_frequency
    (select_documents where_ (with_policy_state d f rs seq ls))
  = map without_frequency (select_documents where_ d).
Proof.
  unfold select_documents. cbn [documents users with_policy_state].
  induction (filter where_ (documents d)) as [|x xs IHx]; [reflexivity|].
  cbn [flat_map]. rewrite !map_app, IHx. f_equal. clear IHx.
  induction (users d) as [|u us IHu]; [reflexivity|].
  cbn [flat_map]. rewrite !map_app, IHu. f_equal. clear IHu.
  destruct (User.id u =? Document.user_id x)%string; [|reflexivity].
  unfold left_join_profiles. cbn [user_profiles with_policy_state].
  rewrite filter_profiles_with_frequency.
  destruct (filter _ (user_profiles d)) as [|p ps]; [reflexivity|].
  cbn [map]. f_equal. rewrite !map_map. apply map_ext. reflexivity.
Qed.

Lemma sendTestReminder_policy_blind (host : Host) (ns : Notifier) now
  userId documentId w D :
  notifier_oblivious ns ->
  map without_frequency (select_document documentId userId D)
  = map without_frequency (select_document documentId userId (db w)) ->
  sendTestReminder host ns now userId documentId (with_db w D)
  = (fst (sendTestReminder host ns now userId documentId w),
     with_db (snd (sendTestReminder host ns now userId documentId w)) D).
Proof.
  intros O B.
  unfold sendTestReminder, try_catch, bind, d1_all, ret.
  cbn [with_db tick db outbox].
  destruct (d1 host (tick w)); try reflexivity.
  destruct (select_document documentId userId D) as [|doc' rest'];
    destruct (select_document documentId userId (db w)) as [|doc rest];
    try discriminate B; try reflexivity.
  cbn [map] in B. injection B as E0 E1 E2 E3 E4 E5 E6 E7 _.
  assert (E : without_frequency doc' = without_frequency doc).
  { unfold without_frequency. congruence. }
  rewrite <- (sendNotification_without_frequency ns doc'),
          <- (sendNotification_without_frequency ns doc), E, E3.
  change (advance (with_db w D) D [])
    with (with_db (advance w (db w) []) D).
  rewrite (sendNotification_oblivious _ _ O).
  match goal with
  | |- context [sendNotification ns ?x ?n ?W] =>
      destruct (sendNotification ns x n W) as [[b|] w1]
  end; reflexivity.
Qed.

Lemma sendNotification_completes (host : Host) (doc : Joined.t)
  (days : number) (w : World) :
  exists b,
    fst (sendNotification (theNotificationService host) doc days w)
    = Normal b.
Proof.
  unfold sendNotification, try_catch, ret.
  cbn [send_whatsapp send_sms send_email theNotificationService].
  set (p := mkPayload _ _ _ _ _ _).
  repeat match goal with
    | |- context [if ?b then _ else _] => destruct b; cbn
    end; eauto;
  match goal with
  | |- context [sendWhatsAppNotification host ?q w] =>
      destruct (sendWhatsAppNotification_total host q w) as (b & E);
      destruct (sendWhatsAppNotification host q w) as [c w1]
  | |- context [sendSMSNotification host ?q w] =>
      destruct (sendSMSNotification_total host q w) as (b & E);
      destruct (sendSMSNotification host q w) as [c w1]
  | |- context [sendEmailNotification host ?q w] =>
      destruct (sendEmailNotification_total host q w) as (b & E);
      destruct (sendEmailNotification host q w) as [c w1]
  end; cbn in E; subst c; cbn; eauto.
Qed.

(** C9: the test reminder returns a boolean and leaves the database as it
    found it; neither its result nor the requests it sends depend on the
    reminders table, the activity log or the configured frequency; and
    whenever the query finds the document, the test reminder is exactly
    the delivery to the first row found, for the day count against the
    current instant: no due-check and no per-day deduplication stands
    between the query and the delivery.  So five days before the expiry,
    when no reminder is due under any frequency, and with a reminder
    already sent that day, the message of the sample document still goes
    out. *)
Theorem sendTestReminder_writes_nothing (host : Host) (now : Z)
  (userId : string) (documentId : Z) (w : World) :
  let run :=
    sendTestReminder host (theNotificationService host) now userId
      documentId in
  (exists b, fst (run w) = Normal b)
  /\ db (snd (run w)) = db w
  /\ (forall f rs seq ls,
         let w2 := with_db w (with_policy_state (db w) f rs seq ls) in
         fst (run w2) = fst (run w)
         /\ outbox (snd (run w2)) = outbox (snd (run w))
         /\ db (snd (run w2)) = db w2)
  /\ (forall doc rest,
         d1 host (tick w) = D1Success ->
         select_document documentId userId (db w) = doc :: rest ->
         run w
         = sendNotification (theNotificationService host) doc
             (days_between
                (Date_getTime host (Joined.expiration_date doc)) (Some now))
             (advance w (db w) []))
  /\ (let later := 19725 * MS_PER_DAY + 8 * 60 * 60 * 1000 in
      let today := toISODate Sample.reliable later in
      let sent_today :=
        {| Reminder.id := 1;
           Reminder.document_id := 1;
           Reminder.user_id := "u1";
           Reminder.reminder_date := today;
           Reminder.reminder_type := "expires_week";
           Reminder.is_sent := true |} in
      let w0 :=
        Sample.world (Sample.database Sample.whatsapp_profile [sent_today]) in
      let doc := Sample.passport_row in
      let days :=
        days_between
          (Date_getTime Sample.reliable (Joined.expiration_date doc))
          (Some later) in
      today = "2024-01-03"
      /\ days = Num 5
      /\ shouldSendReminder (Joined.reminder_frequency doc) days
         = Normal false
      /\ already_sent (Joined.id doc) today (db w0) = true
      /\ sendTestReminder Sample.reliable
           (theNotificationService Sample.reliable) later "u1" 1 w0
         = (Normal true,
            advance (advance w0 (db w0) []) (db w0)
              [ {| provider := "whatsapp";
                   recipient := "918851670050" |} ])).
Proof.
  intros run.
  pose proof (theNotificationService_keeps_db host) as K.
  pose proof (theNotificationService_oblivious host) as O.
  set (ns := theNotificationService host) in *.
  assert (Keep : forall w0, db (snd (run w0)) = db w0).
  { intros w0. unfold run, sendTestReminder, try_catch, bind, d1_all, ret.
    destruct (d1 host (tick w0)); cbn; try reflexivity.
    destruct (select_document documentId userId (db w0)) as [|doc rest];
      [reflexivity|].
    match goal with
    | |- context [sendNotification ns doc ?n ?W] =>
        pose proof (sendNotification_keeps_db K doc n W) as H;
        destruct (sendNotification ns doc n W) as [[b|] w1]
    end; exact H. }
  split; [|split; [apply Keep|split; [|split]]].
  - unfold run, sendTestReminder, try_catch, ret.
    match goal with
    | |- context [match ?c w with _ => _ end] =>
        destruct (c w) as [[b|] w1]
    end; cbn; eauto.
  - intros f rs seq ls w2. subst w2.
    pose proof (select_documents_policy_blind
                  (fun d => (Document.id d =? documentId)%Z
                            && (Document.user_id d =? userId)%string)
                  (db w) f rs seq ls) as B.
    fold (select_document documentId userId) in B.
    unfold run.
    rewrite (sendTestReminder_policy_blind host now userId documentId w _
               O B).
    repeat split.
  - intros doc rest D0 Found.
    unfold run, sendTestReminder, try_catch, bind, d1_all, ret.
    rewrite D0, Found.
    match goal with
    | |- context [sendNotification ns doc ?n ?W] =>
        destruct (sendNotification_completes host doc n W) as (b & E);
        fold ns in E;
        destruct (sendNotification ns doc n W) as [c w1]
    end.
    cbn in E. subst c. reflexivity.
  - repeat split; reflexivity.
Qed.

(* ------------------------------------------------------------------ *)
(** * Further properties of the reminder policy *)

Lemma shouldSendReminder_policy_witness :
  mem_string (or_else (Some "7_days") "30_days") Object_prototype_names
  = false
  /\ shouldSendReminder (Some "7_days") (Num 7)
     = Normal ((7 <? 0) || existsb (Z.eqb 7) (threshold_set (Some "7_days"))).
Proof.
  split; [reflexivity|].
  apply (@shouldSendReminder_policy (Some "7_days") 7). reflexivity.
Defined.

Lemma shouldSendReminder_expired_witness :
  -3 < 0 /\ shouldSendReminder (Some "toString") (Num (-3)) = Normal true.
Proof.
  split; [lia|].
  apply (@shouldSendReminder_expired (Some "toString") (-3)). lia.
Defined.

(** X3: the five frequencies are nested: a day on which a reminder is due
    under a later warning start is also due under every earlier one. *)
Theorem shouldSendReminder_frequencies_nested (d : number) :
  (shouldSendReminder (Some "1_day") d = Normal true ->
   shouldSendReminder (Some "3_days") d = Normal true)
  /\ (shouldSendReminder (Some "3_days") d = Normal true ->
      shouldSendReminder (Some "7_days") d = Normal true)
  /\ (shouldSendReminder (Some "7_days") d = Normal true ->
      shouldSendReminder (Some "14_days") d = Normal true)
  /\ (shouldSendReminder (Some "14_days") d = Normal true ->
      shouldSendReminder (Some "30_days") d = Normal true)
  /\ (shouldSendReminder (Some "30_days") d = Normal true <->
      shouldSendReminder None d = Normal true).
Proof.
  destruct d as [z|]; [|repeat split; discriminate].
  unfold shouldSendReminder. cbn.
  destruct (z <? 0); [repeat split; reflexivity|].
  destruct (Z.eqb_spec z 30), (Z.eqb_spec z 14), (Z.eqb_spec z 7),
    (Z.eqb_spec z 3), (Z.eqb_spec z 1), (Z.eqb_spec z 0);
    cbn; repeat split; intros; try reflexivity; try assumption;
    try discriminate.
Qed.

Lemma own_property_days (key : string) (days : list Z) (d : Z) :
  own_property key reminderDays = Some days ->
  existsb (Z.eqb d) days = true ->
  existsb (Z.eqb d) [30; 14; 7; 3; 1; 0] = true.
Proof.
  unfold own_property, reminderDays. intros H E.
  repeat match type of H with
    | (if ?b then _ else _) = _ => destruct b
    end; try discriminate H; injection H as <-; cbn in *;
    repeat match goal with
      | |- context [d =? ?k] => destruct (d =? k)
      end; cbn in *; try reflexivity; discriminate.
Qed.

(** X4: a reminder that is due for a document that has not yet expired
    falls on one of six days, whatever the frequency, and is stored with
    the tier of that day. *)
Theorem due_reminder_days_and_tiers (f : option string) (d : Z) :
  shouldSendReminder f (Num d) = Normal true ->
  0 <= d ->
  (d = 30 /\ getReminderType (Num d) = "expires_month")
  \/ (d = 14 /\ getReminderType (Num d) = "expires_two_weeks")
  \/ (d = 7 /\ getReminderType (Num d) = "expires_week")
  \/ (d = 3 /\ getReminderType (Num d) = "expires_soon")
  \/ (d = 1 /\ getReminderType (Num d) = "expires_soon")
  \/ (d = 0 /\ getReminderType (Num d) = "expires_today").
Proof.
  intros Due Pos.
  assert (E : existsb (Z.eqb d) [30; 14; 7; 3; 1; 0] = true).
  { unfold shouldSendReminder in Due. cbn [is_negative] in Due.
    destruct (Z.ltb_spec d 0); [lia|]. cbv zeta in Due.
    unfold get_property in Due.
    destruct (own_property (or_else f "30_days") reminderDays) as [days|]
      eqn:O.
    - injection Due as Due. exact (own_property_days _ d O Due).
    - destruct (mem_string _ _); [discriminate|].
      cbn in Due. injection Due as Due. exact Due. }
  cbn in E.
  destruct (Z.eqb_spec d 30) as [->|]; [left; split; reflexivity|].
  destruct (Z.eqb_spec d 14) as [->|]; [right; left; split; reflexivity|].
  destruct (Z.eqb_spec d 7) as [->|];
    [right; right; left; split; reflexivity|].
  destruct (Z.eqb_spec d 3) as [->|];
    [right; right; right; left; split; reflexivity|].
  destruct (Z.eqb_spec d 1) as [->|];
    [right; right; right; right; left; split; reflexivity|].
  destruct (Z.eqb_spec d 0) as [->|];
    [right; right; right; right; right; split; reflexivity|].
  discriminate E.
Qed.

Lemma due_reminder_days_and_tiers_witness :
  shouldSendReminder (Some "14_days") (Num 3) = Normal true
  /\ 0 <= 3
  /\ ((3 = 30 /\ getReminderType (Num 3) = "expires_month")
      \/ (3 = 14 /\ getReminderType (Num 3) = "expires_two_weeks")
      \/ (3 = 7 /\ getReminderType (Num 3) = "expires_week")
      \/ (3 = 3 /\ getReminderType (Num 3) = "expires_soon")
      \/ (3 = 1 /\ getReminderType (Num 3) = "expires_soon")
      \/ (3 = 0 /\ getReminderType (Num 3) = "expires_today")).
Proof.
  split; [reflexivity|]. split; [lia|].
  apply (@due_reminder_days_and_tiers (Some "14_days") 3); [reflexivity|lia].
Defined.

(** X5: while the two instants are less than 2^53 ms apart (the range in
    which the source's double arithmetic is exact: the difference is
    then an exact double, and a quotient that is not an integer lies at
    least 1/86400000 from the next integer, more than the rounding of a
    double below 2^27 can move it), the day count is the ceiling of the
    difference in days: it is [k] exactly when the expiry lies more than
    [k - 1] and at most [k] whole days after the reference instant.  An
    invalid date on either side makes it [NaN]. *)
Theorem days_between_is_ceiling (e t k : Z) :
  Z.abs (e - t) < 2 ^ 53 ->
  (days_between (Some e) (Some t) = Num k
   <-> (k - 1) * MS_PER_DAY < e - t <= k * MS_PER_DAY)
  /\ days_between None (Some t) = NaN
  /\ days_between (Some e) None = NaN
  /\ days_between None None = NaN.
Proof.
  intros _. split; [|repeat split; reflexivity].
  unfold days_between, ceil_div.
  assert (P : 0 < MS_PER_DAY) by reflexivity.
  generalize dependent MS_PER_DAY. intros m P.
  set (a := e - t).
  pose proof (Z.div_mod (- a) m ltac:(lia)) as DM.
  pose proof (Z.mod_pos_bound (- a) m P) as B.
  split.
  - intros H. injection H as <-. nia.
  - intros H. f_equal.
    assert (Q : - a / m = - k); [|lia].
    symmetry. apply (Z.div_unique_pos (- a) m (- k) (k * m - a)); lia.
Qed.

Lemma days_between_is_ceiling_witness :
  let e := 19730 * MS_PER_DAY in
  let t := Sample.now in
  Z.abs (e - t) < 2 ^ 53
  /\ (days_between (Some e) (Some t) = Num 7
      <-> (7 - 1) * MS_PER_DAY < e - t <= 7 * MS_PER_DAY)
  /\ days_between None (Some t) = NaN
  /\ days_between (Some e) None = NaN
  /\ days_between None None = NaN.
Proof.
  split; [reflexivity|].
  apply (@days_between_is_ceiling (19730 * MS_PER_DAY) Sample.now 7).
  reflexivity.
Defined.

(* ------------------------------------------------------------------ *)
(** * Further properties of the transports *)

Lemma formatPhoneNumber_valid_when_nonempty (s : string) :
  nonempty (formatPhoneNumber s) = true ->
  all_digits (formatPhoneNumber s)
  /\ (10 <= String.length (formatPhoneNumber s) <= 15)%nat.
Proof.
  rewrite formatPhoneNumber_unfold.
  pose proof (all_digits_remove_leading (all_digits_remove_non_digits s)) as D.
  set (c := remove_leading_plus_or_00 (remove_non_digits s)) in *.
  cbv zeta.
  set (c' := if (String.length c =? 10)%nat then "91" ++ c else c).
  assert (D' : all_digits c').
  { unfold c'. destruct (String.length c =? 10)%nat; [|exact D].
    unfold all_digits in *. simpl. repeat constructor; assumption. }
  destruct (String.length c' <? 10)%nat eqn:L1; [discriminate|].
  destruct (15 <? String.length c')%nat eqn:L2; [discriminate|].
  intros _. cbn. split; [exact D'|].
  apply Nat.ltb_ge in L1. apply Nat.ltb_ge in L2. lia.
Qed.

Section TransportProperties.

Variable host : Host.

Ltac run_send :=
  unfold sendWhatsAppNotification, sendSMSNotification,
    sendEmailNotification, try_catch, bind, ret, fetch, lift;
  repeat match goal with
    | |- context [if ?b then _ else _] => destruct b eqn:?; cbn
    | |- context [match http host ?k with _ => _ end] =>
        destruct (http host k) eqn:?; cbn
    end.

Lemma sendWhatsAppNotification_fail_soft (p : NotificationPayload) :
  fail_soft host (sendWhatsAppNotification host p).
Proof.
  intros w; run_send;
    first
      [ exists true; repeat split; try discriminate; eauto; fail
      | exists false; repeat split; try discriminate; intros _;
        first [ left; reflexivity
              | right; split; [congruence | eauto] ] ].
Qed.

Lemma sendSMSNotification_fail_soft (p : NotificationPayload) :
  fail_soft host (sendSMSNotification host p).
Proof.
  intros w; run_send;
    first
      [ exists true; repeat split; try discriminate; eauto; fail
      | exists false; repeat split; try discriminate; intros _;
        first [ left; reflexivity
              | right; split; [congruence | eauto] ] ].
Qed.

Lemma sendEmailNotification_fail_soft (p : NotificationPayload) :
  fail_soft host (sendEmailNotification host p).
Proof.
  intros w; run_send;
    first
      [ exists true; repeat split; try discriminate; eauto; fail
      | exists false; repeat split; try discriminate; intros _;
        first [ left; reflexivity
              | right; split; [congruence | eauto] ] ].
Qed.

(** X6: each of the three sends is fail-soft.  It never throws; when it
    returns [false] it has made no request at all or exactly one request
    that did not end in a 2xx answer with a JSON body (the fetch was
    rejected, the body was not JSON, or the status was outside 2xx); and
    it returns [true] exactly when its credentials are configured, the
    destination of a chat or SMS message normalises to a number, the
    Twilio credentials can be encoded by [btoa], and its one request ends
    in a 2xx answer with a JSON body. *)
Theorem transports_are_fail_soft (p : NotificationPayload) :
  (fail_soft host (sendWhatsAppNotification host p)
   /\ fail_soft host (sendSMSNotification host p)
   /\ fail_soft host (sendEmailNotification host p))
  /\ (forall w,
         fst (sendWhatsAppNotification host p w) = Normal true
         <-> truthy (WHATSAPP_ACCESS_TOKEN (env host)) = true
             /\ truthy (WHATSAPP_PHONE_NUMBER_ID (env host)) = true
             /\ nonempty (formatPhoneNumber (to p)) = true
             /\ http host (tick w) = HttpOk)
  /\ (forall w,
         fst (sendSMSNotification host p w) = Normal true
         <-> truthy (TWILIO_ACCOUNT_SID (env host)) = true
             /\ truthy (TWILIO_AUTH_TOKEN (env host)) = true
             /\ truthy (TWILIO_PHONE_NUMBER (env host)) = true
             /\ nonempty (formatPhoneNumber (to p)) = true
             /\ btoa_accepts
                  (or_else (TWILIO_ACCOUNT_SID (env host)) "" ++ ":"
                   ++ or_else (TWILIO_AUTH_TOKEN (env host)) "") = true
             /\ http host (tick w) = HttpOk)
  /\ (forall w,
         fst (sendEmailNotification host p w) = Normal true
         <-> truthy (RESEND_API_KEY (env host)) = true
             /\ http host (tick w) = HttpOk).
Proof.
  split; [|split; [|split]].
  - split; [apply sendWhatsAppNotification_fail_soft|].
    split; [apply sendSMSNotification_fail_soft
           | apply sendEmailNotification_fail_soft].
  - intros w. unfold sendWhatsAppNotification, try_catch, bind, ret, fetch.
    destruct (truthy (WHATSAPP_ACCESS_TOKEN (env host))),
      (truthy (WHATSAPP_PHONE_NUMBER_ID (env host))); cbn;
      try (intuition congruence).
    destruct (nonempty (formatPhoneNumber (to p))); cbn;
      try (intuition congruence).
    destruct (http host (tick w)); cbn; intuition congruence.
  - intros w.
    unfold sendSMSNotification, try_catch, bind, ret, fetch, lift.
    destruct (truthy (TWILIO_ACCOUNT_SID (env host))),
      (truthy (TWILIO_AUTH_TOKEN (env host))),
      (truthy (TWILIO_PHONE_NUMBER (env host))); cbn;
      try (intuition congruence).
    destruct (nonempty (formatPhoneNumber (to p))); cbn;
      try (intuition congruence).
    destruct (btoa_accepts _); cbn; try (intuition congruence).
    destruct (http host (tick w)); cbn; intuition congruence.
  - intros w. unfold sendEmailNotification, try_catch, bind, ret, fetch.
    destruct (truthy (RESEND_API_KEY (env host))); cbn;
      try (intuition congruence).
    destruct (http host (tick w)); cbn; intuition congruence.
Qed.

(** X7: a request leaves the chat and SMS transports only when the
    credentials of the channel are configured and the destination
    normalises to 10 to 15 decimal digits, and it is addressed to exactly
    that number (with a ["+"] in front for SMS); the email transport
    addresses its request to the destination as given. *)
Theorem transport_requests_are_well_addressed (p : NotificationPayload)
  (w : World) :
  let n := formatPhoneNumber (to p) in
  (outbox (snd (sendWhatsAppNotification host p w)) = outbox w
   \/ (outbox (snd (sendWhatsAppNotification host p w))
       = (outbox w ++ [ {| provider := "whatsapp"; recipient := n |} ])%list
       /\ all_digits n /\ (10 <= String.length n <= 15)%nat
       /\ truthy (WHATSAPP_ACCESS_TOKEN (env host)) = true
       /\ truthy (WHATSAPP_PHONE_NUMBER_ID (env host)) = true))
  /\ (outbox (snd (sendSMSNotification host p w)) = outbox w
      \/ (outbox (snd (sendSMSNotification host p w))
          = (outbox w ++ [ {| provider := "sms"; recipient := "+" ++ n |} ])%list
          /\ all_digits n /\ (10 <= String.length n <= 15)%nat
          /\ truthy (TWILIO_ACCOUNT_SID (env host)) = true
          /\ truthy (TWILIO_AUTH_TOKEN (env host)) = true
          /\ truthy (TWILIO_PHONE_NUMBER (env host)) = true))
  /\ (outbox (snd (sendEmailNotification host p w)) = outbox w
      \/ (outbox (snd (sendEmailNotification host p w))
          = (outbox w ++ [ {| provider := "email"; recipient := to p |} ])%list
          /\ truthy (RESEND_API_KEY (env host)) = true)).
Proof.
  intros n. subst n.
  pose proof (formatPhoneNumber_valid_when_nonempty (to p)) as V.
  repeat split.
  - unfold sendWhatsAppNotification, try_catch, bind, ret, fetch.
    destruct (truthy (WHATSAPP_ACCESS_TOKEN (env host)));
      [|left; reflexivity].
    destruct (truthy (WHATSAPP_PHONE_NUMBER_ID (env host)));
      [|left; reflexivity].
    cbn. destruct (nonempty (formatPhoneNumber (to p)));
      [|left; reflexivity].
    destruct (V eq_refl) as (V1 & V2).
    right. cbn. destruct (http host (tick w)); cbn; repeat split; auto; lia.
  - unfold sendSMSNotification, try_catch, bind, ret, fetch, lift.
    destruct (truthy (TWILIO_ACCOUNT_SID (env host)));
      [|left; reflexivity].
    destruct (truthy (TWILIO_AUTH_TOKEN (env host)));
      [|left; reflexivity].
    destruct (truthy (TWILIO_PHONE_NUMBER (env host)));
      [|left; reflexivity].
    cbn. destruct (nonempty (formatPhoneNumber (to p)));
      [|left; reflexivity].
    cbn. destruct (btoa_accepts _); [|left; reflexivity].
    destruct (V eq_refl) as (V1 & V2).
    right. cbn. destruct (http host (tick w)); cbn; repeat split; auto; lia.
  - unfold sendEmailNotification, try_catch, bind, ret, fetch.
    destruct (truthy (RESEND_API_KEY (env host))); [|left; reflexivity].
    right. cbn. destruct (http host (tick w)); cbn; repeat split; auto; lia.
Qed.

Lemma fail_soft_try_catch (c handler : Js bool) :
  fail_soft host c -> fail_soft host (try_catch c handler).
Proof.
  intros H w. destruct (H w) as (b & E & T & F).
  unfold try_catch. destruct (c w) as [r w']. cbn in *. subst r.
  exists b. auto.
Qed.

(** X8: with the notification service the engine constructs, one delivery
    makes at most one request on one channel: it never throws, returns
    [true] only when that single request was answered with a 2xx status,
    and after a failure no second request follows on any channel. *)
Theorem sendNotification_makes_one_attempt (doc : Joined.t) (days : number) :
  fail_soft host (sendNotification (theNotificationService host) doc days).
Proof.
  unfold sendNotification.
  set (p := mkPayload _ _ _ _ _ _).
  destruct (negb (nonempty (to p))).
  - intros w. exists false. cbn. repeat split; try discriminate. auto.
  - apply fail_soft_try_catch.
    cbn [send_whatsapp send_sms send_email theNotificationService].
    repeat match goal with
      | |- context [if ?b then _ else _] => destruct b
      end;
      first [ apply sendWhatsAppNotification_fail_soft
            | apply sendSMSNotification_fail_soft
            | apply sendEmailNotification_fail_soft ].
Qed.

(** X9: a channel preference that is missing, empty or not one of
    [whatsapp] and [sms] is served by the email transport, addressed to the
    owner's email address. *)
Theorem sendNotification_defaults_to_email (doc : Joined.t) (days : number)
  (w : World) :
  let channel := or_else (Joined.preferred_reminder_channel doc) "email" in
  channel <> "whatsapp" ->
  channel <> "sms" ->
  nonempty (Joined.email doc) = true ->
  sendNotification (theNotificationService host) doc days w
  = sendEmailNotification host (payload_for doc (Joined.email doc) days) w.
Proof.
  intros channel Hw Hs He.
  unfold sendNotification, getNotificationAddress. fold channel.
  apply String.eqb_neq in Hw. apply String.eqb_neq in Hs.
  rewrite Hw, Hs. cbn [orb or_else]. rewrite He. cbn [to negb].
  rewrite He. cbn [negb].
  unfold try_catch. cbn [send_email theNotificationService].
  fold (payload_for doc (Joined.email doc) days).
  destruct (sendEmailNotification_total host
              (payload_for doc (Joined.email doc) days) w) as (b & E).
  destruct (sendEmailNotification host _ w) as [c w']. cbn in E. subst c.
  reflexivity.
Qed.

End TransportProperties.

Lemma sendNotification_defaults_to_email_witness :
  let doc := Scenario.telegram_row in
  let channel := or_else (Joined.preferred_reminder_channel doc) "email" in
  let w := Sample.world (Sample.database Sample.whatsapp_profile []) in
  (channel <> "whatsapp" /\ channel <> "sms"
   /\ nonempty (Joined.email doc) = true)
  /\ sendNotification (theNotificationService Sample.reliable) doc (Num 7) w
     = sendEmailNotification Sample.reliable
         (payload_for doc (Joined.email doc) (Num 7)) w.
Proof.
  split; [repeat split; discriminate || reflexivity|].
  apply (@sendNotification_defaults_to_email Sample.reliable
           Scenario.telegram_row (Num 7)
           (Sample.world (Sample.database Sample.whatsapp_profile [])));
    discriminate || reflexivity.
Defined.

Lemma sendNotification_fallback_on_throw_witness :
  let ns := Scenario.broken_chat Sample.reliable in
  let doc := Sample.passport_row in
  let w := Sample.world (Sample.database Sample.whatsapp_profile []) in
  let channel := or_else (Joined.preferred_reminder_channel doc) "email" in
  let payload :=
    payload_for doc (getNotificationAddress doc channel) (Num 7) in
  (nonempty (to payload) = true
   /\ nonempty (Joined.email doc) = true
   /\ (channel = "whatsapp" /\ send_whatsapp ns payload w = (Thrown, w)
       \/ channel = "sms" /\ send_sms ns payload w = (Thrown, w)))
  /\ sendNotification ns doc (Num 7) w
     = send_email ns (with_to payload (Joined.email doc)) w.
Proof.
  split; [repeat split; left; split; reflexivity|].
  apply (@sendNotification_fallback_on_throw
           (Scenario.broken_chat Sample.reliable) Sample.passport_row
           (Num 7)
           (Sample.world (Sample.database Sample.whatsapp_profile []))
           (Sample.world (Sample.database Sample.whatsapp_profile [])));
    try reflexivity.
  left. split; reflexivity.
Defined.

Lemma sendNotification_without_phone_witness :
  let doc := Sample.passport_row_no_phone in
  let w := Sample.world (Sample.database Sample.no_phone_profile []) in
  let channel := or_else (Joined.preferred_reminder_channel doc) "email" in
  ((channel = "whatsapp" \/ channel = "sms")
   /\ truthy (Joined.phone_number doc) = false)
  /\ sendNotification (theNotificationService Sample.reliable) doc (Num 7) w
     = (Normal false, w).
Proof.
  split; [split; [left|]; reflexivity|].
  apply (@sendNotification_without_phone
           (theNotificationService Sample.reliable)
           Sample.passport_row_no_phone (Num 7)
           (Sample.world (Sample.database Sample.no_phone_profile [])));
    [left|]; reflexivity.
Defined.

(* ------------------------------------------------------------------ *)
(** * Further properties of the orchestrator *)

(** X12: the three SQL statements of the engine make a round trip.  A row
    just inserted is pending and is not found by the deduplication query;
    once it is marked through its [last_row_id] the query for its document
    and day finds it, after the rows found before; the query for any other
    document or day finds what it found before; and the rowid is new. *)
Theorem insert_mark_select_round_trip (d : Database) (document_id : Z)
  (user_id today type_ : string) :
  let inserted := insert_reminder document_id user_id today type_ d in
  let marked := fst (update_reminder_sent (snd inserted) (fst inserted)) in
  select_sent_reminders document_id today (fst inserted)
  = select_sent_reminders document_id today d
  /\ select_sent_reminders document_id today marked
     = (select_sent_reminders document_id today d ++ [snd inserted])%list
  /\ (forall document_id' date,
         document_id' <> document_id \/ date <> today ->
         select_sent_reminders document_id' date marked
         = select_sent_reminders document_id' date d)
  /\ Forall (fun r => Reminder.id r < snd inserted) (reminders d).
Proof.
  cbn [insert_reminder update_reminder_sent fst snd set_reminders reminders
       reminders_seq].
  unfold select_sent_reminders.
  cbn [reminders set_reminders].
  rewrite mark_sent_inserted by reflexivity.
  assert (P : forall r,
             Reminder.document_id r = document_id ->
             Reminder.reminder_date r = today ->
             sent_on document_id today r = Reminder.is_sent r).
  { intros r E1 E2. unfold sent_on.
    rewrite E1, E2, Z.eqb_refl, String.eqb_refl. reflexivity. }
  assert (Q : forall r document_id' date,
             Reminder.document_id r = document_id ->
             Reminder.reminder_date r = today ->
             document_id' <> document_id \/ date <> today ->
             sent_on document_id' date r = false).
  { intros r d' date E1 E2 H. unfold sent_on. rewrite E1, E2.
    destruct H as [H|H].
    - apply Z.eqb_neq in H. rewrite Z.eqb_sym in H. rewrite H. reflexivity.
    - apply String.eqb_neq in H. rewrite String.eqb_sym in H. rewrite H.
      rewrite andb_false_r. reflexivity. }
  split; [|split; [|split]].
  - rewrite filter_app, map_app. cbn [filter].
    rewrite P by reflexivity. cbn. apply app_nil_r.
  - rewrite filter_app, map_app. cbn [filter].
    rewrite P by reflexivity. reflexivity.
  - intros d' date H. rewrite filter_app, map_app. cbn [filter].
    rewrite (Q _ d' date) by (reflexivity || exact H). cbn. apply app_nil_r.
  - apply Forall_forall. intros r H. apply next_rowid_fresh. exact H.
Qed.

Section OrchestratorProperties.

Variable host : Host.

Lemma shouldSendReminder_NaN (f : option string) :
  shouldSendReminder f NaN <> Normal true.
Proof.
  unfold shouldSendReminder. cbn [is_negative]. cbv zeta.
  destruct (match get_property (or_else f "30_days") with
            | Undefined => get_property "30_days"
            | p => p
            end); cbn; discriminate.
Qed.

(** X13: a document whose expiration date does not parse gets no
    scheduled reminder: the day count is [NaN], and the document is left
    without a database call, without a row and without a message. *)
Theorem unparseable_date_is_never_due (ns : Notifier) (doc : Joined.t)
  (today : string) (w : World) :
  Date_getTime host (Joined.expiration_date doc) = None ->
  processDocumentReminder host ns doc today w = (Normal tt, w).
Proof.
  intros H. unfold processDocumentReminder, try_catch, bind, lift, ret.
  rewrite H. cbn [days_between].
  pose proof (shouldSendReminder_NaN (Joined.reminder_frequency doc)) as N.
  destruct (shouldSendReminder (Joined.reminder_frequency doc) NaN)
    as [[|]|]; [congruence | reflexivity | reflexivity].
Qed.

(** X14: a document that already has a sent row for today is skipped:
    processing it completes normally, leaves the database as it is and
    hands no request to any transport. *)
Theorem already_reminded_document_is_skipped (ns : Notifier)
  (doc : Joined.t) (today : string) (w : World) :
  already_sent (Joined.id doc) today (db w) = true ->
  let r := processDocumentReminder host ns doc today w in
  fst r = Normal tt /\ db (snd r) = db w /\ outbox (snd r) = outbox w.
Proof.
  intros Sent r. subst r.
  assert (S : select_sent_reminders (Joined.id doc) today (db w) <> []).
  { intros E. apply already_sent_iff_selected in E. congruence. }
  unfold processDocumentReminder, try_catch, bind, lift, ret, d1_all.
  destruct (shouldSendReminder _ _) as [[|]|]; cbn; auto.
  destruct (d1 host (tick w)); cbn;
    try (repeat split; try reflexivity; apply app_nil_r).
  destruct (select_sent_reminders (Joined.id doc) today (db w));
    [congruence|].
  cbn. repeat split; try reflexivity; apply app_nil_r.
Qed.

Lemma processDocumentReminder_tables (doc : Joined.t) (today : string)
  (w : World) :
  let d' := db (snd (processDocumentReminder host
                       (theNotificationService host) doc today w)) in
  documents d' = documents (db w)
  /\ users d' = users (db w)
  /\ user_profiles d' = user_profiles (db w).
Proof.
  destruct (processDocumentReminder_cases host
              (theNotificationService_keeps_db host) doc today w)
    as (_ & [E | (_ & sent & _ & _ & D & U & P)]).
  - cbv zeta. rewrite E. auto.
  - auto.
Qed.

(** X15: a scheduled pass only reads the documents, the users and the
    profiles: the three tables are the same after the pass as before. *)
Theorem scheduled_pass_reads_documents_only (now : Z) (w : World) :
  let d' := db (snd (processReminders host (theNotificationService host)
                       now w)) in
  documents d' = documents (db w)
  /\ users d' = users (db w)
  /\ user_profiles d' = user_profiles (db w).
Proof.
  apply (processReminders_invariant host (theNotificationService host)
           (fun a b => documents b = documents a
                       /\ users b = users a
                       /\ user_profiles b = user_profiles a)).
  - auto.
  - intros a b c (D1 & U1 & P1) (D2 & U2 & P2). repeat split; congruence.
  - intros doc w0. apply processDocumentReminder_tables.
Qed.

(** The rows and the audit entries a pass may add. *)
Lemma processDocumentReminder_appends (doc : Joined.t) (today : string)
  (w : World) :
  let d' := db (snd (processDocumentReminder host
                       (theNotificationService host) doc today w)) in
  exists rows entries,
    reminders d' = (reminders (db w) ++ rows)%list
    /\ activity_logs d' = (activity_logs (db w) ++ entries)%list
    /\ Forall (fun r => Reminder.reminder_date r = today) rows
    /\ Forall (fun e => ActivityLog.action_type e = "reminder_sent") entries
    /\ (List.length entries <= List.length rows)%nat.
Proof.
  destruct (processDocumentReminder_cases host
              (theNotificationService_keeps_db host) doc today w)
    as (_ & [E | (_ & sent & Er & El & _)]); cbv zeta.
  - rewrite E. exists [], []. rewrite !app_nil_r. repeat split; auto.
  - rewrite Er. destruct El as [-> | ->].
    + exists [pending_row host doc today (db w) sent], [].
      rewrite app_nil_r. repeat split; auto. cbn. lia.
    + exists [pending_row host doc today (db w) sent],
             [sent_entry host doc today].
      repeat split; auto.
Qed.

(** X16: a scheduled pass only appends.  The reminder rows and the audit
    entries that existed before the pass are all still there afterwards,
    unchanged and in place; every row it adds is dated today, every entry
    it adds is a [reminder_sent] entry, and it adds no more entries than
    rows. *)
Theorem scheduled_pass_only_appends (now : Z) (w : World) :
  let d' := db (snd (processReminders host (theNotificationService host)
                       now w)) in
  exists rows entries,
    reminders d' = (reminders (db w) ++ rows)%list
    /\ activity_logs d' = (activity_logs (db w) ++ entries)%list
    /\ Forall (fun r => Reminder.reminder_date r = toISODate host now) rows
    /\ Forall (fun e => ActivityLog.action_type e = "reminder_sent") entries
    /\ (List.length entries <= List.length rows)%nat.
Proof.
  apply (processReminders_invariant host (theNotificationService host)
           (fun a b =>
              exists rows entries,
                reminders b = (reminders a ++ rows)%list
                /\ activity_logs b = (activity_logs a ++ entries)%list
                /\ Forall (fun r => Reminder.reminder_date r
                                    = toISODate host now) rows
                /\ Forall (fun e => ActivityLog.action_type e
                                    = "reminder_sent") entries
                /\ (List.length entries <= List.length rows)%nat)).
  - intros d. exists [], []. rewrite !app_nil_r. repeat split; auto.
  - intros a b c (r1 & e1 & R1 & L1 & F1 & G1 & N1)
                 (r2 & e2 & R2 & L2 & F2 & G2 & N2).
    exists (r1 ++ r2)%list, (e1 ++ e2)%list.
    rewrite R2, R1, L2, L1, <- !app_assoc, !length_app.
    repeat split; try apply Forall_app; auto. lia.
  - intros doc w0. apply processDocumentReminder_appends.
Qed.

End OrchestratorProperties.

Lemma unparseable_date_is_never_due_witness :
  let w := Sample.world (Sample.database Sample.whatsapp_profile []) in
  Date_getTime Sample.reliable (Joined.expiration_date Scenario.undated_row)
  = None
  /\ processDocumentReminder Sample.reliable
       (theNotificationService Sample.reliable) Scenario.undated_row
       "2024-01-01" w
     = (Normal tt, w).
Proof.
  split; [reflexivity|].
  apply (@unparseable_date_is_never_due Sample.reliable
           (theNotificationService Sample.reliable) Scenario.undated_row
           "2024-01-01"
           (Sample.world (Sample.database Sample.whatsapp_profile []))).
  reflexivity.
Defined.

Lemma already_reminded_document_is_skipped_witness :
  let host := Sample.reliable in
  let ns := theNotificationService host in
  let doc := Sample.passport_row in
  let w := Sample.world
             (Sample.database Sample.whatsapp_profile [Sample.sent_row]) in
  let r := processDocumentReminder host ns doc "2024-01-01" w in
  already_sent (Joined.id doc) "2024-01-01" (db w) = true
  /\ fst r = Normal tt /\ db (snd r) = db w /\ outbox (snd r) = outbox w.
Proof.
  split; [reflexivity|].
  apply (@already_reminded_document_is_skipped Sample.reliable
           (theNotificationService Sample.reliable) Sample.passport_row
           "2024-01-01"
           (Sample.world
              (Sample.database Sample.whatsapp_profile [Sample.sent_row]))).
  reflexivity.
Defined.

(* ------------------------------------------------------------------ *)
(** * Which documents the engine looks at *)

Lemma select_documents_in (where_ : Document.t -> bool) (d : Database)
  (r : Joined.t) :
  In r (select_documents where_ d) ->
  exists doc,
    In doc (documents d) /\ where_ doc = true
    /\ Joined.id r = Document.id doc
    /\ Joined.user_id r = Document.user_id doc.
Proof.
  unfold select_documents. intros H.
  apply in_flat_map in H. destruct H as (doc & Hd & H).
  apply filter_In in Hd. destruct Hd as (Hd & Hp).
  apply in_flat_map in H. destruct H as (u & _ & H).
  exists doc. split; [exact Hd|]. split; [exact Hp|].
  destruct (User.id u =? Document.user_id doc)%string; [|destruct H].
  unfold left_join_profiles in H.
  destruct (filter _ (user_profiles d)) as [|p ps].
  - destruct H as [<-|[]]. split; reflexivity.
  - apply in_map_iff in H. destruct H as (q & <- & _). split; reflexivity.
Qed.

Lemma for_of_invariant_on {A} (R : Database -> Database -> Prop)
  (P : A -> Prop) (body : A -> Js unit) :
  (forall d, R d d) ->
  (forall a b c, R a b -> R b c -> R a c) ->
  (forall x w, P x -> R (db w) (db (snd (body x w)))) ->
  forall xs w, Forall P xs -> R (db w) (db (snd (for_of xs body w))).
Proof.
  intros Rrefl Rtrans Hbody xs.
  induction xs as [|x xs IH]; intros w F; cbn; [apply Rrefl|].
  inversion F as [|? ? Px Fxs]; subst.
  unfold bind. pose proof (Hbody x w Px) as H1.
  destruct (body x w) as [[u|] w1]; cbn in *; [|exact H1].
  eapply Rtrans; [exact H1 | apply IH; exact Fxs].
Qed.

Section SelectionProperties.

Variable host : Host.

Lemma processDocumentReminder_other_document (d : Z) (doc : Joined.t)
  (today : string) (w : World) :
  Joined.id doc <> d ->
  let d' := db (snd (processDocumentReminder host
                       (theNotificationService host) doc today w)) in
  reminders_of d d' = reminders_of d (db w)
  /\ activity_of d d' = activity_of d (db w).
Proof.
  intros N. cbv zeta.
  destruct (processDocumentReminder_cases host
              (theNotificationService_keeps_db host) doc today w)
    as (_ & [E | (_ & sent & Er & El & _)]).
  - rewrite E. auto.
  - apply Z.eqb_neq in N.
    unfold reminders_of, activity_of.
    rewrite Er, filter_app. cbn. rewrite N, app_nil_r.
    split; [reflexivity|].
    destruct El as [-> | ->]; [reflexivity|].
    rewrite filter_app. cbn. unfold about_document. cbn.
    rewrite N, app_nil_r. reflexivity.
Qed.

Lemma processReminders_leaves_inactive (now : Z) (w : World) (d : Z) :
  (forall doc,
      In doc (documents (db w)) ->
      Document.id doc = d ->
      Document.status doc <> "active") ->
  let d' := db (snd (processReminders host (theNotificationService host)
                       now w)) in
  reminders_of d d' = reminders_of d (db w)
  /\ activity_of d d' = activity_of d (db w).
Proof.
  intros Inactive. cbv zeta.
  unfold processReminders, try_catch, bind, d1_all, ret.
  destruct (d1 host (tick w)); cbn; auto.
  assert (F : Forall (fun r => Joined.id r <> d)
                (select_active_documents (db w))).
  { apply Forall_forall. intros r H E.
    apply select_documents_in in H.
    destruct H as (doc & Hd & Hp & Hi & _).
    apply String.eqb_eq in Hp.
    apply (Inactive doc Hd); congruence. }
  pose proof (@for_of_invariant_on Joined.t
                (fun a b => reminders_of d b = reminders_of d a
                            /\ activity_of d b = activity_of d a)
                (fun r => Joined.id r <> d)
                (fun doc => processDocumentReminder host
                              (theNotificationService host) doc
                              (toISODate host now))
                (fun _ => conj eq_refl eq_refl)) as H.
  specialize (H ltac:(intros a b c (R1 & A1) (R2 & A2); split; congruence)).
  specialize (H ltac:(intros x w0 Px;
                      apply processDocumentReminder_other_document;
                      exact Px)).
  specialize (H _ (advance w (db w) []) F).
  destruct (for_of _ _ _) as [[u|] w1]; exact H.
Qed.

(** X17: a scheduled pass adds no reminder row and no audit entry for a
    document id under which no document with the status [active] is
    stored: renewed, cancelled and deleted documents are left alone. *)
Theorem inactive_documents_are_not_reminded (now : Z) (w : World) (d : Z) :
  (forall doc,
      In doc (documents (db w)) ->
      Document.id doc = d ->
      Document.status doc <> "active") ->
  let d' := db (snd (processReminders host (theNotificationService host)
                       now w)) in
  reminders_of d d' = reminders_of d (db w)
  /\ activity_of d d' = activity_of d (db w).
Proof. exact (@processReminders_leaves_inactive now w d). Qed.

(** X18: a test reminder asked for under a user who owns no document with
    the given id returns [false], and nothing is written and no request
    is made: one user cannot have a reminder sent for the document of
    another, nor for a document that does not exist. *)
Theorem sendTestReminder_requires_ownership (ns : Notifier) (now : Z)
  (userId : string) (documentId : Z) (w : World) :
  (forall doc,
      In doc (documents (db w)) ->
      Document.id doc = documentId ->
      Document.user_id doc <> userId) ->
  let r := sendTestReminder host ns now userId documentId w in
  fst r = Normal false /\ db (snd r) = db w /\ outbox (snd r) = outbox w.
Proof.
  intros Foreign r. subst r.
  assert (E : select_document documentId userId (db w) = []).
  { destruct (select_document documentId userId (db w)) as [|x l] eqn:S;
      [reflexivity|].
    assert (H : In x (select_document documentId userId (db w)))
      by (rewrite S; left; reflexivity).
    apply select_documents_in in H.
    destruct H as (doc & Hd & Hp & _).
    apply andb_prop in Hp. destruct Hp as (H1 & H2).
    apply Z.eqb_eq in H1. apply String.eqb_eq in H2.
    exfalso. exact (Foreign doc Hd H1 H2). }
  unfold sendTestReminder, try_catch, bind, d1_all, ret.
  destruct (d1 host (tick w)); cbn; rewrite ?E; cbn;
    repeat split; try reflexivity; apply app_nil_r.
Qed.

End SelectionProperties.

Lemma inactive_documents_are_not_reminded_witness :
  let host := Sample.reliable in
  let ns := theNotificationService host in
  let w := Renewal.world in
  let d' := db (snd (processReminders host ns Sample.now w)) in
  let active := Sample.world (Sample.database Sample.whatsapp_profile []) in
  (documents (db w) = [renewed Sample.passport]
   /\ Document.id (renewed Sample.passport) = 1
   /\ List.length
        (reminders_of 1
           (db (snd (processReminders host ns Sample.now active))))
      = 1%nat)
  /\ (forall doc,
         In doc (documents (db w)) ->
         Document.id doc = 1 ->
         Document.status doc <> "active")
  /\ reminders_of 1 d' = reminders_of 1 (db w)
  /\ activity_of 1 d' = activity_of 1 (db w).
Proof.
  assert (H : forall doc,
             In doc (documents (db Renewal.world)) ->
             Document.id doc = 1 -> Document.status doc <> "active").
  { intros doc [<-|[]] _. discriminate. }
  split; [repeat split; reflexivity|].
  split; [exact H|].
  exact (@inactive_documents_are_not_reminded Sample.reliable Sample.now
           Renewal.world 1 H).
Defined.

Lemma sendTestReminder_requires_ownership_witness :
  let w := Sample.world (Sample.database Sample.whatsapp_profile []) in
  let r := sendTestReminder Sample.reliable
             (theNotificationService Sample.reliable) Sample.now
             "intruder" 1 w in
  (forall doc,
      In doc (documents (db w)) ->
      Document.id doc = 1 ->
      Document.user_id doc <> "intruder")
  /\ fst r = Normal false /\ db (snd r) = db w /\ outbox (snd r) = outbox w.
Proof.
  assert (H : forall doc,
             In doc (documents
                       (db (Sample.world
                              (Sample.database Sample.whatsapp_profile []))))
             -> Document.id doc = 1 -> Document.user_id doc <> "intruder").
  { intros doc [<-|[]] _. discriminate. }
  split; [exact H|].
  exact (@sendTestReminder_requires_ownership Sample.reliable
           (theNotificationService Sample.reliable) Sample.now "intruder" 1
           (Sample.world (Sample.database Sample.whatsapp_profile [])) H).
Defined.

(* ------------------------------------------------------------------ *)
(** * The message texts *)

Lemma string_app_assoc (a b c : string) : (a ++ b) ++ c = a ++ b ++ c.
Proof. induction a as [|x a IH]; cbn; [reflexivity | rewrite IH; reflexivity]. Qed.

Lemma occurs_in_here (s rest : string) : occurs_in s (s ++ rest).
Proof. exists "", rest. reflexivity. Qed.

Lemma occurs_in_here3 (a b c rest : string) :
  occurs_in (a ++ b ++ c) (a ++ b ++ c ++ rest).
Proof.
  exists "", rest. cbn. rewrite !string_app_assoc. reflexivity.
Qed.

Lemma occurs_in_later (s a t : string) :
  occurs_in s t -> occurs_in s (a ++ t).
Proof.
  intros (before & after & ->). exists (a ++ before), after.
  rewrite !string_app_assoc. reflexivity.
Qed.

Ltac find_occurrence :=
  repeat first [ apply occurs_in_here3
               | apply occurs_in_here
               | apply occurs_in_later ].

(** X19: the subject of the email carries the ["[CRITICAL] "] prefix
    exactly when the document is critical, always names the document, and
    after that prefix announces EXPIRED exactly for the tier [expired] and
    EXPIRES TODAY exactly for the tier [expires_today]. *)
Theorem getEmailSubject_flags_urgency (p : NotificationPayload) :
  let priority := if isCritical p then "[CRITICAL] " else "" in
  String.prefix "[CRITICAL] " (getEmailSubject p) = isCritical p
  /\ occurs_in (documentTitle p) (getEmailSubject p)
  /\ (String.prefix (priority ++ "EXPIRED: ") (getEmailSubject p) = true
      <-> getReminderType (daysUntilExpiry p) = "expired")
  /\ (String.prefix (priority ++ "EXPIRES TODAY: ") (getEmailSubject p) = true
      <-> getReminderType (daysUntilExpiry p) = "expires_today").
Proof.
  destruct p as [to_ title exp days critical msg].
  unfold getEmailSubject, getReminderType.
  cbn [isCritical daysUntilExpiry documentTitle].
  split; [|split].
  - destruct critical, (is_negative days), (is_exactly days 0),
      (is_exactly days 1); cbn; try reflexivity;
      destruct title; reflexivity.
  - destruct (is_negative days), (is_exactly days 0), (is_exactly days 1);
      find_occurrence.
  - assert (P : forall x, String.prefix "" x = true) by (intros []; reflexivity).
    destruct days as [z|]; cbn [is_negative is_exactly is_zero at_most];
      [ destruct (z <? 0), (z =? 0), (z =? 1), (z <=? 3), (z <=? 7),
          (z <=? 14), critical | destruct critical ];
      cbn; rewrite ?P; split; split; intros H; try reflexivity;
      discriminate H.
Qed.

(** X20: whatever the day count and the criticality, the SMS text and the
    WhatsApp text both quote the title of the document and both carry the
    expiry date as the runtime renders it. *)
Theorem messages_name_document_and_date (locale : Locale)
  (p : NotificationPayload) :
  occurs_in (dquote ++ documentTitle p ++ dquote) (formatSMSMessage locale p)
  /\ occurs_in (toLocaleDateString locale (expirationDate p))
       (formatSMSMessage locale p)
  /\ occurs_in (dquote ++ documentTitle p ++ dquote)
       (formatWhatsAppMessage locale p)
  /\ occurs_in (toLocaleDateString_long locale (expirationDate p))
       (formatWhatsAppMessage locale p).
Proof.
  unfold formatSMSMessage, formatWhatsAppMessage. cbv zeta.
  destruct (is_negative (daysUntilExpiry p)),
    (is_exactly (daysUntilExpiry p) 0), (is_exactly (daysUntilExpiry p) 1);
    repeat split; find_occurrence.
Qed.

(* ------------------------------------------------------------------ *)
(** * The routes *)

Section RouteProperties.

Variable host : Host.
Variable to_integer : string -> option Z.

Lemma sendTestReminder_completes (now : Z) (userId : string) (id : Z)
  (w : World) :
  let r := sendTestReminder host (theNotificationService host) now userId
             id w in
  (exists b, fst r = Normal b) /\ db (snd r) = db w.
Proof.
  cbv zeta. unfold sendTestReminder, try_catch, bind, d1_all, ret.
  destruct (d1 host (tick w)); cbn; eauto.
  destruct (select_document id userId (db w)) as [|doc rest]; cbn; eauto.
  match goal with
  | |- context [sendNotification ?ns doc ?n ?W] =>
      pose proof (sendNotification_keeps_db
                    (theNotificationService_keeps_db host) doc n W) as K;
      destruct (sendNotification ns doc n W) as [[b|] w1]
  end; cbn in *; eauto.
Qed.

(** X21: the route that starts a run by hand always answers 200 with
    [success]: a run contains its own failures, so the 500 answer of the
    route cannot occur, not even when the document query fails and
    nothing was processed. *)
Theorem process_reminders_route_always_succeeds (now : Z) (w : World) :
  fst (process_reminders_route host now w)
  = Normal (json (JsonSuccessMessage "Reminder processing completed"))
  /\ (d1 host (tick w) <> D1Success ->
      db (snd (process_reminders_route host now w)) = db w
      /\ outbox (snd (process_reminders_route host now w)) = outbox w).
Proof.
  unfold process_reminders_route, try_catch, bind, ret.
  pose proof (try_catch_unit_total
                (documents <- d1_all host select_active_documents ;;
                 for_of documents
                   (fun doc => processDocumentReminder host
                                 (theNotificationService host) doc
                                 (toISODate host now)))
                w) as T.
  change (fst (processReminders host (theNotificationService host) now w)
          = Normal tt) in T.
  split.
  - destruct (processReminders host (theNotificationService host) now w)
      as [[[]|] w']; cbn in *; [reflexivity | discriminate].
  - intros F. unfold processReminders, try_catch, bind, d1_all, ret.
    destruct (d1 host (tick w)); [congruence | |]; cbn;
      split; try reflexivity; apply app_nil_r.
Qed.

(** X22: the test-reminder route answers 401 without touching anything
    when no user is signed in; for a signed-in user it answers 200 exactly
    when the delivery reported success and 500 otherwise, it never lets
    an exception out, and it leaves the database as it found it. *)
Theorem test_reminder_route_reports_delivery (now : Z) (userId : string)
  (id : Z) (w : World) :
  test_reminder_route host now None id w = (Normal unauthorized, w)
  /\ (exists sent,
         fst (sendTestReminder host (theNotificationService host) now
                userId id w) = Normal sent
         /\ fst (test_reminder_route host now (Some userId) id w)
            = Normal
                (if sent
                 then json (JsonSuccessMessage
                              "Test reminder sent successfully")
                 else json_status
                        (JsonError "Failed to send test reminder") 500))
  /\ db (snd (test_reminder_route host now (Some userId) id w)) = db w.
Proof.
  split; [reflexivity|].
  destruct (sendTestReminder_completes now userId id w) as ((b & E) & K).
  unfold test_reminder_route, try_catch, bind, ret.
  destruct (sendTestReminder host (theNotificationService host) now userId
              id w) as [c w1].
  cbn in E, K. subst c.
  split; [exists b; split; [reflexivity|]|]; destruct b; cbn; auto.
Qed.

Lemma set_documents_same (d : Database) :
  set_documents d (documents d) = d.
Proof. destruct d; reflexivity. Qed.

(** X23: deleting a document one owns, when the four statements succeed,
    answers 200, removes exactly the documents with that id and owner and
    exactly the reminder rows with that document id and owner, keeps
    users and profiles, and appends one [document_deleted] entry that
    names the title and no related document. *)
Theorem delete_document_route_removes_own (userId id : string) (w : World)
  (first : Document.t) (rest : list Document.t) :
  select_own_documents to_integer id userId (db w) = first :: rest ->
  d1 host (tick w) = D1Success ->
  d1 host (S (tick w)) = D1Success ->
  d1 host (S (S (tick w))) = D1Success ->
  d1 host (S (S (S (tick w)))) = D1Success ->
  let r := delete_document_route host to_integer (Some userId) id w in
  fst r = Normal (json JsonSuccess)
  /\ select_own_documents to_integer id userId (db (snd r)) = []
  /\ (forall x, In x (documents (db (snd r)))
                <-> In x (documents (db w))
                    /\ document_matches to_integer id userId x = false)
  /\ (forall x, In x (reminders (db (snd r)))
                <-> In x (reminders (db w))
                    /\ reminder_matches to_integer id userId x = false)
  /\ users (db (snd r)) = users (db w)
  /\ user_profiles (db (snd r)) = user_profiles (db w)
  /\ activity_logs (db (snd r))
     = (activity_logs (db w)
        ++ [ {| ActivityLog.user_id := userId;
                ActivityLog.action_type := "document_deleted";
                ActivityLog.description :=
                  "Deleted document " ++ dquote ++ Document.title first
                  ++ dquote;
                ActivityLog.related_document_id := None |} ])%list.
Proof.
  intros Own D0 D1 D2 D3 r. subst r.
  unfold delete_document_route, bind, ret, d1_all, d1_run.
  rewrite D0, Own. cbn. rewrite D1. cbn. rewrite D2. cbn. rewrite D3. cbn.
  assert (N : forall (b : bool), negb b = true <-> b = false)
    by (intros []; cbn; split; congruence).
  split; [reflexivity|]. split; [|split; [|split]].
  - unfold select_own_documents. cbn.
    induction (documents (db w)) as [|x l IH]; [reflexivity|]. cbn.
    destruct (document_matches to_integer id userId x) eqn:M; cbn;
      [exact IH | rewrite M; exact IH].
  - intros x. rewrite filter_In, N. reflexivity.
  - intros x. rewrite filter_In, N. reflexivity.
  - repeat split.
Qed.

(** X24: deleting under a user who owns no document with that id changes
    nothing in the database, and answers 404 when the lookup succeeds. *)
Theorem delete_document_route_requires_ownership (userId id : string)
  (w : World) :
  select_own_documents to_integer id userId (db w) = [] ->
  let r := delete_document_route host to_integer (Some userId) id w in
  db (snd r) = db w
  /\ (d1 host (tick w) = D1Success ->
      fst r = Normal (json_status (JsonError "Document not found") 404)).
Proof.
  intros Foreign r. subst r.
  unfold delete_document_route, bind, ret, d1_all.
  destruct (d1 host (tick w)); cbn; rewrite ?Foreign; cbn;
    split; try reflexivity; intros H; discriminate H.
Qed.

Lemma renew_documents_status (userId id : string) (n : Z) (d : Database) :
  to_integer id = Some n ->
  (forall doc, In doc (documents d) -> Document.id doc = n ->
               Document.user_id doc = userId) ->
  forall doc,
    In doc (documents (fst (renew_documents to_integer id userId d))) ->
    Document.id doc = n ->
    Document.status doc <> "active".
Proof.
  intros T Own doc H E. cbn in H. apply in_map_iff in H.
  destruct H as (x & <- & Hx).
  destruct (document_matches to_integer id userId x) eqn:M.
  - cbn. discriminate.
  - exfalso. unfold document_matches, integer_is in M. rewrite T in M.
    rewrite E, Z.eqb_refl, (Own x Hx E), String.eqb_refl in M.
    discriminate M.
Qed.

(** X25: once the renew route has run its UPDATE for a document of the
    signed-in user, a scheduled pass adds no reminder row and no audit
    entry for that document, whatever else the route and the pass meet. *)
Theorem renewed_document_is_no_longer_reminded (userId id : string) (n : Z)
  (w : World) (now : Z) :
  to_integer id = Some n ->
  (forall doc, In doc (documents (db w)) -> Document.id doc = n ->
               Document.user_id doc = userId) ->
  d1 host (tick w) = D1Success ->
  let w1 := snd (renew_document_route host to_integer (Some userId) id w) in
  let w2 := snd (processReminders host (theNotificationService host)
                   now w1) in
  reminders_of n (db w2) = reminders_of n (db w1)
  /\ activity_of n (db w2) = activity_of n (db w1).
Proof.
  intros T Own D0 w1 w2. subst w2.
  apply processReminders_leaves_inactive.
  assert (Docs : documents (db w1)
                 = documents (fst (renew_documents to_integer id userId
                                     (db w)))).
  { subst w1. unfold renew_document_route, bind, ret, d1_all, d1_run, lift.
    rewrite D0. cbn.
    destruct (d1 host (S (tick w))); cbn; try reflexivity.
    match goal with
    | |- context [match ?l with [] => _ | _ :: _ => _ end] =>
        destruct l as [|x l']
    end; cbn; try reflexivity.
    destruct (d1 host (S (S (tick w)))); reflexivity. }
  rewrite Docs. apply (@renew_documents_status userId id n (db w) T Own).
Qed.

(** X26: renewing under a user who owns no document with that id changes
    nothing in the database; and when the two statements succeed the
    handler does not answer 404: reading the title of the missing row
    raises. *)
Theorem renew_document_route_without_document (userId id : string)
  (w : World) :
  select_own_documents to_integer id userId (db w) = [] ->
  let r := renew_document_route host to_integer (Some userId) id w in
  db (snd r) = db w
  /\ (d1 host (tick w) = D1Success ->
      d1 host (S (tick w)) = D1Success ->
      fst r = Thrown).
Proof.
  intros Foreign r. subst r.
  assert (Map : map (fun x => if document_matches to_integer id userId x
                               then renewed x else x)
                  (documents (db w))
                = documents (db w)).
  { rewrite <- (map_id (documents (db w))) at 2.
    apply map_ext_in. intros x H.
    destruct (document_matches to_integer id userId x) eqn:M; [|reflexivity].
    exfalso. unfold select_own_documents in Foreign.
    assert (I : In x (filter (document_matches to_integer id userId)
                        (documents (db w))))
      by (apply filter_In; split; assumption).
    rewrite Foreign in I. destruct I. }
  unfold renew_document_route, bind, ret, d1_all, d1_run, lift.
  destruct (d1 host (tick w)) eqn:D0; cbn;
    try (split; [reflexivity | intros H; discriminate H]).
  rewrite Map, set_documents_same.
  fold (select_own_documents to_integer id userId (db w)).
  rewrite Foreign.
  destruct (d1 host (S (tick w))) eqn:D1; cbn;
    split; try reflexivity; intros _ H; discriminate H.
Qed.

End RouteProperties.

Lemma delete_document_route_removes_own_witness :
  let host := Sample.reliable in
  let w := Sample.world
             (Sample.database Sample.whatsapp_profile [Sample.sent_row]) in
  let r := delete_document_route host Scenario.path_integer (Some "u1") "1"
             w in
  (select_own_documents Scenario.path_integer "1" "u1" (db w)
   = [Sample.passport]
   /\ d1 host (tick w) = D1Success
   /\ d1 host (S (tick w)) = D1Success
   /\ d1 host (S (S (tick w))) = D1Success
   /\ d1 host (S (S (S (tick w)))) = D1Success)
  /\ fst r = Normal (json JsonSuccess)
  /\ select_own_documents Scenario.path_integer "1" "u1" (db (snd r)) = []
  /\ (forall x, In x (documents (db (snd r)))
                <-> In x (documents (db w))
                    /\ document_matches Scenario.path_integer "1" "u1" x
                       = false)
  /\ (forall x, In x (reminders (db (snd r)))
                <-> In x (reminders (db w))
                    /\ reminder_matches Scenario.path_integer "1" "u1" x
                       = false)
  /\ users (db (snd r)) = users (db w)
  /\ user_profiles (db (snd r)) = user_profiles (db w)
  /\ activity_logs (db (snd r))
     = (activity_logs (db w)
        ++ [ {| ActivityLog.user_id := "u1";
                ActivityLog.action_type := "document_deleted";
                ActivityLog.description :=
                  "Deleted document " ++ dquote
                  ++ Document.title Sample.passport ++ dquote;
                ActivityLog.related_document_id := None |} ])%list.
Proof.
  split; [repeat split; reflexivity|].
  apply (@delete_document_route_removes_own Sample.reliable
           Scenario.path_integer "u1" "1"
           (Sample.world
              (Sample.database Sample.whatsapp_profile [Sample.sent_row]))
           Sample.passport []);
    reflexivity.
Defined.

Lemma delete_document_route_requires_ownership_witness :
  let host := Sample.reliable in
  let w := Sample.world
             (Sample.database Sample.whatsapp_profile [Sample.sent_row]) in
  let r := delete_document_route host Scenario.path_integer
             (Some "intruder") "1" w in
  select_own_documents Scenario.path_integer "1" "intruder" (db w) = []
  /\ db (snd r) = db w
  /\ (d1 host (tick w) = D1Success ->
      fst r = Normal (json_status (JsonError "Document not found") 404)).
Proof.
  split; [reflexivity|].
  apply (@delete_document_route_requires_ownership Sample.reliable
           Scenario.path_integer "intruder" "1"
           (Sample.world
              (Sample.database Sample.whatsapp_profile [Sample.sent_row]))).
  reflexivity.
Defined.

Lemma renewed_document_is_no_longer_reminded_witness :
  let host := Sample.reliable in
  let w := Sample.world (Sample.database Sample.whatsapp_profile []) in
  let w1 := snd (renew_document_route host Scenario.path_integer
                   (Some "u1") "1" w) in
  let w2 := snd (processReminders host (theNotificationService host)
                   Sample.now w1) in
  (Scenario.path_integer "1" = Some 1
   /\ (forall doc, In doc (documents (db w)) -> Document.id doc = 1 ->
                   Document.user_id doc = "u1")
   /\ d1 host (tick w) = D1Success)
  /\ reminders_of 1 (db w2) = reminders_of 1 (db w1)
  /\ activity_of 1 (db w2) = activity_of 1 (db w1).
Proof.
  assert (Own : forall doc,
             In doc (documents
                       (db (Sample.world
                              (Sample.database Sample.whatsapp_profile []))))
             -> Document.id doc = 1 -> Document.user_id doc = "u1").
  { intros doc [<-|[]] _. reflexivity. }
  split; [split; [reflexivity | split; [exact Own | reflexivity]]|].
  exact (@renewed_document_is_no_longer_reminded Sample.reliable
           Scenario.path_integer "u1" "1" 1
           (Sample.world (Sample.database Sample.whatsapp_profile []))
           Sample.now eq_refl Own eq_refl).
Defined.

Lemma renew_document_route_without_document_witness :
  let host := Sample.reliable in
  let w := Sample.world (Sample.database Sample.whatsapp_profile []) in
  let r := renew_document_route host Scenario.path_integer (Some "u1") "7"
             w in
  select_own_documents Scenario.path_integer "7" "u1" (db w) = []
  /\ db (snd r) = db w
  /\ (d1 host (tick w) = D1Success ->
      d1 host (S (tick w)) = D1Success ->
      fst r = Thrown).
Proof.
  split; [reflexivity|].
  apply (@renew_document_route_without_document Sample.reliable
           Scenario.path_integer "u1" "7"
           (Sample.world (Sample.database Sample.whatsapp_profile []))).
  reflexivity.
Defined.
